(** * Kalman-VAE: the training objective and the masking evaluation

    A shallow embedding of [src/kalman_vae.py] (the methods [elbo] and
    [predict_future] of [KalmanVariationalAutoencoder]) and of the mask
    and pixel-error helpers of [src/kvae/evaluation.py].

    - Python exceptions are an error monad ([result]).
    - Python ints are [Z]; tensor dimensions are [nat]; Python floats and
      tensor entries are rationals ([Q]): every value the mask code
      manipulates is 0, 1 or a count of them, which floating point
      represents exactly.
    - Python dicts are [gmap string _]. *)

From Stdlib Require Import ZArith QArith String List Lia.
From stdpp Require Import base option list gmap strings.

Open Scope string_scope.
Open Scope list_scope.
Open Scope stdpp_scope.

(** ** Python exceptions *)

Inductive exn : Type :=
  | ValueError (msg : string)
  | IndexError (msg : string)
  | KeyError (key : string)
  | RuntimeError (msg : string).

Inductive result (A : Type) : Type :=
  | Ok (a : A)
  | Raise (e : exn).
Arguments Ok {A} a.
Arguments Raise {A} e.

#[export] Instance result_ret : MRet result := fun _ a => Ok a.
#[export] Instance result_bind : MBind result := fun _ _ f r =>
  match r with
  | Ok a => f a
  | Raise e => Raise e
  end.

(** Index into a Python sequence of length [len]: negative indices count
    from the end, anything outside [-len, len) is an [IndexError]. *)
Definition py_index (len : nat) (i : Z) : option nat :=
  if decide (0 <= i < Z.of_nat len)%Z then Some (Z.to_nat i)
  else if decide (- Z.of_nat len <= i < 0)%Z then Some (Z.to_nat (Z.of_nat len + i))
  else None.

(** [range(a, b)] *)
Definition py_range (a b : Z) : list Z :=
  map (fun k => (a + Z.of_nat k)%Z) (seq 0 (Z.to_nat (b - a))).

(** [lst[i] = x] on a Python list *)
Definition list_setitem {A} (lst : list A) (i : Z) (x : A) : result (list A) :=
  match py_index (length lst) i with
  | Some k => Ok (<[k := x]> lst)
  | None => Raise (IndexError "list assignment index out of range")
  end.

(** [d[k]] on a Python dict *)
Definition dict_getitem {V} (d : gmap string V) (k : string) : result V :=
  match d !! k with
  | Some v => Ok v
  | None => Raise (KeyError k)
  end.

(** A [for] loop whose body may raise. *)
Fixpoint for_each {A S} (body : S -> A -> result S) (xs : list A) (s : S) : result S :=
  match xs with
  | [] => Ok s
  | x :: xs' => s' ← body s x; for_each body xs' s'
  end.

(** ** [src/kvae/evaluation.py]: masks and the pixel-error fraction *)

Module Evaluation.

(** A tensor of shape (rows, cols) is the list of its rows. *)
Abbreviation Tensor2 := (list (list Q)).
Abbreviation Tensor5 := (list (list (list (list (list Q))))).

(** [torch.tensor(lst).repeat(batch_size, 1)]: [batch_size] copies of the
    row. *)
Definition repeat_rows (lst : list Q) (batch_size : nat) : Tensor2 :=
  replicate batch_size lst.

(** [.transpose(0, 1)] of a tensor with [ncols] columns. *)
Definition transpose (ncols : nat) (m : Tensor2) : Tensor2 :=
  map (fun j => map (fun row => nth j row 0%Q) m) (seq 0 ncols).

Definition create_continuous_mask (seq_length mask_length : Z) (batch_size : nat)
  : result Tensor2 :=
  let lst := replicate (Z.to_nat seq_length) 1%Q in
  let start_index := ((seq_length - mask_length) / 2)%Z in
  lst ← for_each (fun lst i => list_setitem lst i 0%Q)
                 (py_range start_index (start_index + mask_length)) lst;
  Ok (transpose (length lst) (repeat_rows lst batch_size)).

(** Column [b] of a two-dimensional tensor, and the number of zeros in a
    vector. *)
Definition column (b : nat) (m : Tensor2) : list Q := map (fun row => nth b row 0%Q) m.
Definition count_zeros (v : list Q) : nat :=
  length (List.filter (fun x => Qeq_bool x 0) v).

(** The state of torch's generator: the stream of uniform draws in
    [0, 1) it will hand out. *)
Definition Generator := nat -> Q.

(** [torch.rand((rows, cols))]: consumes [rows * cols] draws. *)
Definition torch_rand (g : Generator) (rows cols : nat) : Tensor2 * Generator :=
  (map (fun t => map (fun b => g (t * cols + b)) (seq 0 cols)) (seq 0 rows),
   fun k => g (rows * cols + k)).

(** [(u >= mask_rate).to(dtype)] *)
Definition ge_to_dtype (u : Tensor2) (mask_rate : Q) : Tensor2 :=
  map (map (fun x => if Qle_bool mask_rate x then 1%Q else 0%Q)) u.

(** [mask[i] = v]: fills row [i]. *)
Definition row_fill (mask : Tensor2) (i : Z) (v : Q) : result Tensor2 :=
  match py_index (length mask) i with
  | Some k => Ok (alter (map (fun _ => v)) k mask)
  | None => Raise (IndexError "index out of bounds for dimension 0")
  end.

Definition create_random_mask (seq_length batch_size : nat) (mask_rate : Q)
    (g : Generator) : result Tensor2 * Generator :=
  let '(u, g') := torch_rand g seq_length batch_size in
  let mask := ge_to_dtype u mask_rate in
  (mask ← row_fill mask 0 1%Q; row_fill mask (-1) 1%Q, g').

(** *** Elementwise operations on five-dimensional tensors *)

Abbreviation Bool5 := (list (list (list (list (list bool))))).

Definition map5 {A B} (f : A -> B)
  : list (list (list (list (list A)))) -> list (list (list (list (list B)))) :=
  map (map (map (map (map f)))).

Fixpoint map_result {A B} (f : A -> result B) (xs : list A) : result (list B) :=
  match xs with
  | [] => Ok []
  | x :: xs' => y ← f x; ys ← map_result f xs'; Ok (y :: ys)
  end.

(** One axis of torch broadcasting: equal sizes are zipped, a size-1 axis
    is stretched, anything else is a shape error. *)
Definition broadcast {A B C} (f : A -> B -> result C) (xs : list A) (ys : list B)
  : result (list C) :=
  if decide (length xs = length ys) then map_result (fun p => f p.1 p.2) (zip xs ys)
  else match xs, ys with
       | [x], _ => map_result (f x) ys
       | _, [y] => map_result (fun x => f x y) xs
       | _, _ => Raise (RuntimeError "The size of tensor a must match the size of tensor b")
       end.

Definition broadcast5 {A B C} (f : A -> B -> C)
  : list (list (list (list (list A)))) -> list (list (list (list (list B))))
    -> result (list (list (list (list (list C))))) :=
  broadcast (broadcast (broadcast (broadcast (broadcast (fun a b => Ok (f a b)))))).

Definition sumQ (xs : list Q) : Q := foldr Qplus 0%Q xs.

(** [t.sum()] *)
Definition sum5 (t : Tensor5) : Q := sumQ (concat (concat (concat (concat t)))).

(** A float32 scalar as the caller sees it after [.tolist()]. *)
Inductive fval : Type :=
  | Finite (q : Q)
  | PosInf
  | NegInf
  | NaN.

(** IEEE division of two scalars. *)
Definition fdiv (n d : Q) : fval :=
  if Qeq_bool d 0 then
    if Qeq_bool n 0 then NaN
    else if Qle_bool 0 n then PosInf else NegInf
  else Finite (n / d).

Definition bool_to_float (b : bool) : Q := if b then 1%Q else 0%Q.

(** [reconstructed_image > 0.5] *)
Definition gt_half (t : Tensor5) : Bool5 := map5 (fun x => negb (Qle_bool x 0.5)) t.

(** [observation_mask.unsqueeze(-1).unsqueeze(-1).unsqueeze(-1)
      .repeat(1, 1, 1, 16, 16)]: shape (T, B) becomes (T, B, 1, 16, 16). *)
Definition expand_mask (observation_mask : Tensor2) : Tensor5 :=
  map (map (fun x => [replicate 16 (replicate 16 x)])) observation_mask.

(** [1.0 - observation_mask] *)
Definition one_minus (t : Tensor5) : Tensor5 := map5 (fun x => (1 - x)%Q) t.

Definition calculate_fraction_of_incorrect_pixels
    (image reconstructed_image : Tensor5) (observation_mask : Tensor2) : result fval :=
  incorrect ← broadcast5 (fun x b => negb (Qeq_bool x (bool_to_float b)))
                         image (gt_half reconstructed_image);
  let observation_mask := expand_mask observation_mask in
  incorrect ← broadcast5 (fun b y => (bool_to_float b * y)%Q)
                         incorrect (one_minus observation_mask);
  Ok (fdiv (sum5 incorrect) (sum5 (one_minus observation_mask))).

(** *** [evaluate_random_masking] *)

Definition dropout_probabilities : list Q :=
  [0.0; 0.1; 0.2; 0.3; 0.4; 0.5; 0.6; 0.7; 0.8; 0.9; 1]%Q.

(** The columns of the returned [pd.DataFrame]. *)
Record DataFrame := {
  batch_id : list Z;
  df_dropout_probabilities : list Q;
  filtering_incorrect_pixels : list fval;
  smoothing_incorrect_pixels : list fval;
}.

Definition dim0 {A} (t : list A) : nat := length t.
Definition dim1 {A} (t : list (list A)) : nat :=
  match t with [] => 0 | x :: _ => length x end.

Section RandomMasking.
(** The model under evaluation and the data loader are collaborators. *)
Variable Info : Type.
Variable Loader : Type.
(** [next(iter(dataloader))] *)
Variable next_batch : Loader -> Tensor5 * Loader.
(** [kvae.elbo(xs=batch, observation_mask=mask, sample_control=...)],
    keeping the info dictionary. *)
Variable kvae_elbo : Tensor5 -> Tensor2 -> Generator -> result Info * Generator.
(** [kvae.decoder(info[key].view(-1, 2)).mean.view(...)] *)
Variable decoder_mean : Info -> string -> result Tensor5.

Definition loop_state : Type := Loader * Generator * list fval * list fval.

Definition random_masking_step (st : loop_state) (dropout_probability : Q)
  : result loop_state :=
  let '(dataloader, g, filtering, smoothing) := st in
  let '(batch, dataloader) := next_batch dataloader in
  let batch := map5 (fun x => bool_to_float (negb (Qle_bool x 0.5))) batch in
  let seq_length := dim0 batch in
  let batch_size := dim1 batch in
  let '(mask, g) := create_random_mask seq_length batch_size dropout_probability g
    return result loop_state in
  mask ← mask;
  let '(info, g) := kvae_elbo batch mask g return result loop_state in
  info ← info;
  filtered_images ← decoder_mean info "filter_as";
  f ← calculate_fraction_of_incorrect_pixels batch filtered_images mask;
  let filtering := filtering ++ [f] in
  smoothed_images ← decoder_mean info "as_resampled";
  s ← calculate_fraction_of_incorrect_pixels batch smoothed_images mask;
  let smoothing := smoothing ++ [s] in
  Ok (dataloader, g, filtering, smoothing).

Definition evaluate_random_masking (dataloader : Loader) (g : Generator)
  : result DataFrame :=
  '(_, _, filtering, smoothing) ←
    for_each random_masking_step dropout_probabilities (dataloader, g, [], []);
  Ok {| batch_id := replicate (length dropout_probabilities) 0%Z;
        df_dropout_probabilities := dropout_probabilities;
        filtering_incorrect_pixels := filtering;
        smoothing_incorrect_pixels := smoothing |}.
End RandomMasking.

(** A row of a mask: [batch_size] entries, each 0 or 1. *)
Definition binary_row (batch_size : nat) (row : list Q) : Prop :=
  length row = batch_size /\ Forall (fun x => x = 0%Q \/ x = 1%Q) row.

(** Every entry of a five-dimensional tensor satisfies [P]. *)
Definition Forall5 {A} (P : A -> Prop) : list (list (list (list (list A)))) -> Prop :=
  Forall (Forall (Forall (Forall (Forall P)))).

(** A generator whose draws are non-negative, as uniform draws are. *)
Definition nonneg_draws (g : Generator) : Prop := forall k, (0 <= g k)%Q.

(** An observation mask that hides nothing. *)
Definition all_ones (mask : Tensor2) : Prop := Forall (Forall (fun x => x = 1%Q)) mask.

(** A list of [n] elements that all satisfy [P]; nested, the shape of a
    tensor. *)
Definition shaped {A} (n : nat) (P : A -> Prop) (l : list A) : Prop :=
  length l = n /\ Forall P l.

Definition has_shape2 {A} (T B : nat) : list (list A) -> Prop :=
  shaped T (shaped B (fun _ => True)).

Definition has_shape5 {A} (T B C H W : nat)
  : list (list (list (list (list A)))) -> Prop :=
  shaped T (shaped B (shaped C (shaped H (shaped W (fun _ => True))))).

(** [(batch > 0.5).float()], as [evaluate_random_masking] binarizes its
    batch. *)
Definition binarize (batch : Tensor5) : Tensor5 :=
  map5 (fun x => bool_to_float (negb (Qle_bool x 0.5))) batch.

(** The mask of [seq_length] rows and [batch_size] columns that hides
    nothing. *)
Definition ones2 (seq_length batch_size : nat) : Tensor2 :=
  replicate seq_length (replicate batch_size 1%Q).

(** A small concrete run: three frames of one 16x16 single-channel image,
    a model whose reconstructions are all 0.25, and a generator that always
    draws 0.5. *)
Definition sample_frame (v : Q) : list (list (list (list Q))) :=
  [[replicate 16 (replicate 16 v)]].
Definition sample_batch : Tensor5 := [sample_frame 1; sample_frame 0; sample_frame 1]%Q.
Definition sample_loader (_ : unit) : Tensor5 * unit := (sample_batch, tt).
Definition sample_elbo (_ : Tensor5) (_ : Tensor2) (g : Generator)
  : result unit * Generator := (Ok tt, g).
Definition sample_decoder (_ : unit) (_ : string) : result Tensor5 :=
  Ok (replicate 3 (sample_frame 0.25)).
Definition sample_generator : Generator := fun _ => 0.5%Q.

End Evaluation.

(** ** [src/kalman_vae.py]: the Kalman variational autoencoder *)

Module KalmanVAE.

(** *** The torch interface

    Tensors, distributions and the state of torch's default random
    generator are abstract. Tensor arithmetic is floating point; the
    development only relies on which operations are applied to which
    operands. Sampling is the one operation that reads and advances the
    generator. *)
Class Torch := {
  Tensor : Type;
  Distribution : Type;
  RngState : Type;
  (** [t.shape], [t.reshape(dims)], [t.view(dims)] *)
  shape : Tensor -> list Z;
  reshape : Tensor -> list Z -> Tensor;
  view : Tensor -> list Z -> Tensor;
  (** [t.sum(d)], [t.mean(d)], [t.sum()] *)
  sum_dim : Tensor -> Z -> Tensor;
  mean_dim : Tensor -> Z -> Tensor;
  sum_all : Tensor -> Tensor;
  (** [-t], [a + b], [a - b], [c * t] for a Python float [c], [a @ b],
      [t[:-1]] *)
  neg : Tensor -> Tensor;
  add : Tensor -> Tensor -> Tensor;
  sub : Tensor -> Tensor -> Tensor;
  scale : Q -> Tensor -> Tensor;
  matmul : Tensor -> Tensor -> Tensor;
  drop_last : Tensor -> Tensor;
  (** [torch.zeros(n)], [torch.ones(n)] *)
  zeros : Z -> Tensor;
  ones : Z -> Tensor;
  (** [D.Normal(loc, scale)], [D.MultivariateNormal(loc, cov)] *)
  Normal : Tensor -> Tensor -> Distribution;
  MultivariateNormal : Tensor -> Tensor -> Distribution;
  (** [d.mean], [d.log_prob(x)], [kl_divergence(p, q)] *)
  dist_mean : Distribution -> Tensor;
  log_prob : Distribution -> Tensor -> Tensor;
  kl_divergence : Distribution -> Distribution -> Tensor;
  (** [d.rsample()], [d.sample()]: both draw from the default generator,
      which no caller passes in. *)
  rsample : Distribution -> RngState -> Tensor * RngState;
  sample : Distribution -> RngState -> Tensor * RngState;
}.

(** [sample_control.py] is not part of the sources; the code reads the two
    string attributes [encoder] and [decoder]. *)
Record SampleControl := {
  encoder : string;
  decoder : string;
}.

(** The keys of the dictionary that [elbo] returns. *)
Definition elbo_info_keys : list string :=
  ["reconst_weight"; "regularization_weight"; "kalman_weight"; "kl_weight";
   "reconstruction"; "regularization"; "kl";
   "kalman_observation_log_likelihood"; "kalman_state_transition_log_likelihood";
   "kalman_posterior_log_likelihood"; "observation_mask";
   "filter_means"; "filter_covariances"; "filter_next_means"; "filter_next_covariances";
   "mat_As"; "mat_Cs"; "means"; "covariances"; "as"; "zs"; "filter_as"; "as_resampled"].

Section Model.
Context `{Torch}.

(** *** The state-space model

    [state_space_model.py] is not part of the sources: its four methods are
    collaborators, described by the arguments they are called with and the
    tuples they return. A keyword argument the caller leaves out is [None]. *)
Record FilterArgs := {
  fa_as : Tensor;
  fa_sample_control : SampleControl;
  fa_observation_mask : option Tensor;
  fa_learn_weight_model : bool;
  fa_symmetrize_covariance : bool;
  fa_burn_in : option Z;
}.

Record FilterOut := {
  filter_means : Tensor;
  filter_covariances : Tensor;
  filter_next_means : Tensor;
  filter_next_covariances : Tensor;
  mat_As : Tensor;
  mat_Cs : Tensor;
  filter_as : Tensor;
}.

Record SmoothArgs := {
  sa_as : Tensor;
  sa_filter_means : Tensor;
  sa_filter_covariances : Tensor;
  sa_filter_next_means : Tensor;
  sa_filter_next_covariances : Tensor;
  sa_mat_As : Tensor;
  sa_mat_Cs : Tensor;
  sa_sample_control : SampleControl;
  sa_symmetrize_covariance : bool;
  sa_burn_in : option Z;
}.

Record SmoothOut := {
  means : Tensor;
  covariances : Tensor;
  zs : Tensor;
  as_resampled : Tensor;
}.

Record PredictArgs := {
  pa_as : Tensor;
  pa_means : Tensor;
  pa_covariances : Tensor;
  pa_filter_next_means : Tensor;
  pa_filter_next_covariances : Tensor;
  pa_mat_As : Tensor;
  pa_mat_Cs : Tensor;
  pa_num_steps : Z;
  pa_sample_control : SampleControl;
}.

Record PredictOut := {
  po_as : Tensor;
  po_means : Tensor;
  po_covariances : Tensor;
  po_filter_next_means : Tensor;
  po_filter_next_covariances : Tensor;
  po_mat_As : Tensor;
  po_mat_Cs : Tensor;
}.

(** A collaborator may raise, and may draw from the default generator. *)
Definition Collaborator (A B : Type) : Type := A -> RngState -> result B * RngState.

Record StateSpaceModel := {
  K : Z;
  mat_R : Tensor;
  kalman_filter : Collaborator FilterArgs FilterOut;
  kalman_smooth : Collaborator SmoothArgs SmoothOut;
  ssm_predict_future : Collaborator PredictArgs PredictOut;
  state_transition_log_likelihood : Collaborator (Tensor * Tensor) Tensor;
}.

(** The attributes of [self] that [elbo] and [predict_future] read. *)
Record KalmanVariationalAutoencoder := {
  self_encoder : Collaborator Tensor Distribution;
  self_decoder : Collaborator Tensor Distribution;
  state_space_model : StateSpaceModel;
  a_dim : Z;
  z_dim : Z;
  _zero_val : Tensor;
  training : bool;
}.

(** *** Effects

    A call runs in a world made of the state of the default generator and
    of the history of what was called and drawn so far. The history is
    only written, never read: it is there to state in which order things
    happen. *)
Inductive Event : Type :=
  | CallEncoder (x : Tensor)
  | CallDecoder (a : Tensor)
  | CallKalmanFilter (args : FilterArgs) (out : result FilterOut)
  | CallKalmanSmooth (args : SmoothArgs) (out : result SmoothOut)
  | CallPredictFuture (args : PredictArgs) (out : result PredictOut)
  | CallTransitionLL (args : Tensor * Tensor) (out : result Tensor)
  | Draw (d : Distribution) (t : Tensor).

Record World := {
  rng : RngState;
  trace : list Event;
}.

Definition M (A : Type) : Type := World -> result A * World.

#[export] Instance M_ret : MRet M := fun _ a w => (Ok a, w).
#[export] Instance M_bind : MBind M := fun _ _ f m w =>
  match m w with
  | (Ok a, w') => f a w'
  | (Raise e, w') => (Raise e, w')
  end.

Definition raise {A} (e : exn) : M A := fun w => (Raise e, w).

Definition call {A B} (f : Collaborator A B) (ev : A -> result B -> Event) (a : A) : M B :=
  fun w =>
    let '(r, g) := f a (rng w) in
    (r, {| rng := g; trace := trace w ++ [ev a r] |}).

Definition draw (sampler : Distribution -> RngState -> Tensor * RngState)
    (d : Distribution) : M Tensor :=
  fun w =>
    let '(t, g) := sampler d (rng w) in
    (Ok t, {| rng := g; trace := trace w ++ [Draw d t] |}).

(** [t.shape[i]] *)
Definition shape_at (t : Tensor) (i : nat) : M Z :=
  match shape t !! i with
  | Some n => mret n
  | None => raise (IndexError "tuple index out of range")
  end.

(** The values stored in the info dictionaries. *)
Inductive pyval : Type :=
  | PyFloat (q : Q)
  | PyArray (t : Tensor)
  | PyTensor (t : Tensor)
  | PyNone.

Definition py_optional (t : option Tensor) : pyval :=
  match t with Some t => PyTensor t | None => PyNone end.

(** [t.cpu().detach().numpy()] *)
Definition numpy (t : Tensor) : pyval := PyArray t.

(** [x.view(seq_length, batch_size, -1).sum(0).mean(0).sum()]: summed over
    the time axis, averaged over the batch axis, then summed over what is
    left. *)
Definition sum_time_mean_batch (x : Tensor) : Tensor :=
  sum_all (mean_dim (sum_dim x 0) 0).

(** *** [KalmanVariationalAutoencoder.elbo] *)

Definition invalid_encoder (sample_control : SampleControl) : exn :=
  ValueError ("Invalid sample control for encoder: " +:+ encoder sample_control).
Definition invalid_decoder (sample_control : SampleControl) : exn :=
  ValueError ("Invalid sample control for decoder: " +:+ decoder sample_control).

Definition elbo (self : KalmanVariationalAutoencoder)
    (xs : Tensor) (sample_control : SampleControl) (observation_mask : option Tensor)
    (reconst_weight regularization_weight kalman_weight kl_weight : Q)
    (learn_weight_model symmetrize_covariance : bool) (burn_in : Z)
  : M (Tensor * gmap string pyval) :=
  seq_length ← shape_at xs 0;
  batch_size ← shape_at xs 1;
  as_distrib ← call (self_encoder self) (fun x _ => CallEncoder x)
                    (reshape xs (-1 :: drop 2 (shape xs)))%Z;
  as_ ← (if decide (encoder sample_control = "sample") then
           a ← draw rsample as_distrib;
           mret (view a [seq_length; batch_size; a_dim self])
         else if decide (encoder sample_control = "mean") then
           if training self then raise (invalid_encoder sample_control)
           else mret (view (dist_mean as_distrib) [seq_length; batch_size; a_dim self])
         else raise (invalid_encoder sample_control));
  (* Reconstruction objective *)
  xs_distrib ← call (self_decoder self) (fun a _ => CallDecoder a)
                    (view as_ [-1; a_dim self])%Z;
  let reconstruction_obj :=
    sum_all (mean_dim (sum_dim
      (view (log_prob xs_distrib (reshape xs (-1 :: drop 2 (shape xs)))%Z)
            (seq_length :: batch_size :: drop 2 (shape xs))) 0) 0) in
  (* Regularization objective *)
  let regularization_obj :=
    neg (sum_all (mean_dim (sum_dim
      (view (log_prob as_distrib (view as_ [-1; a_dim self])%Z)
            [seq_length; batch_size; a_dim self]) 0) 0)) in
  (* Kalman filter and smoother *)
  fo ← call (kalman_filter (state_space_model self)) CallKalmanFilter
         {| fa_as := as_;
            fa_sample_control := sample_control;
            fa_observation_mask := observation_mask;
            fa_learn_weight_model := learn_weight_model;
            fa_symmetrize_covariance := symmetrize_covariance;
            fa_burn_in := Some burn_in |};
  so ← call (kalman_smooth (state_space_model self)) CallKalmanSmooth
         {| sa_as := as_;
            sa_filter_means := filter_means fo;
            sa_filter_covariances := filter_covariances fo;
            sa_filter_next_means := filter_next_means fo;
            sa_filter_next_covariances := filter_next_covariances fo;
            sa_mat_As := mat_As fo;
            sa_mat_Cs := mat_Cs fo;
            sa_sample_control := sample_control;
            sa_symmetrize_covariance := symmetrize_covariance;
            sa_burn_in := Some burn_in |};
  let zs_distrib :=
    MultivariateNormal
      (view (means so) [seq_length; batch_size; z_dim self])
      (view (covariances so) [seq_length; batch_size; z_dim self; z_dim self]) in
  let kl_reg :=
    if negb (Qeq_bool kl_weight 0.0) then
      let prior_distrib := Normal (zeros (a_dim self)) (ones (a_dim self)) in
      neg (sum_dim (mean_dim (sum_dim (kl_divergence as_distrib prior_distrib) 0) 0) 0)
    else _zero_val self in
  zs_sample ← draw rsample zs_distrib;
  (* ln p(a|z) *)
  let kalman_observation_distrib :=
    MultivariateNormal
      (view (matmul (drop_last (mat_Cs fo)) zs_sample) [-1; a_dim self])%Z
      (mat_R (state_space_model self)) in
  let kalman_observation_log_likelihood :=
    sum_all (mean_dim (sum_dim
      (view (log_prob kalman_observation_distrib (view as_ [-1; a_dim self])%Z)
            [seq_length; batch_size; -1]%Z) 0) 0) in
  (* ln p(z) *)
  kalman_state_transition_log_likelihood ←
    call (state_transition_log_likelihood (state_space_model self)) CallTransitionLL
         (zs_sample, mat_As fo);
  (* ln p(z|a) *)
  let kalman_posterior_log_likelihood :=
    sum_all (mean_dim (sum_dim
      (view (log_prob zs_distrib (view zs_sample [-1; z_dim self])%Z)
            [seq_length; batch_size; -1]%Z) 0) 0) in
  let objective :=
    add (add (add (scale reconst_weight reconstruction_obj)
                  (scale regularization_weight regularization_obj))
             (scale kl_weight kl_reg))
        (scale kalman_weight
               (sub (add kalman_observation_log_likelihood
                         kalman_state_transition_log_likelihood)
                    kalman_posterior_log_likelihood)) in
  mret (objective,
        list_to_map
          [("reconst_weight", PyFloat reconst_weight);
           ("regularization_weight", PyFloat regularization_weight);
           ("kalman_weight", PyFloat kalman_weight);
           ("kl_weight", PyFloat kl_weight);
           ("reconstruction", numpy reconstruction_obj);
           ("regularization", numpy regularization_obj);
           ("kl", numpy kl_reg);
           ("kalman_observation_log_likelihood", numpy kalman_observation_log_likelihood);
           ("kalman_state_transition_log_likelihood",
            numpy kalman_state_transition_log_likelihood);
           ("kalman_posterior_log_likelihood", numpy kalman_posterior_log_likelihood);
           ("observation_mask", py_optional observation_mask);
           ("filter_means", PyTensor (filter_means fo));
           ("filter_covariances", PyTensor (filter_covariances fo));
           ("filter_next_means", PyTensor (filter_next_means fo));
           ("filter_next_covariances", PyTensor (filter_next_covariances fo));
           ("mat_As", PyTensor (mat_As fo));
           ("mat_Cs", PyTensor (mat_Cs fo));
           ("means", PyTensor (means so));
           ("covariances", PyTensor (covariances so));
           ("as", PyTensor as_);
           ("zs", PyTensor (zs so));
           ("filter_as", PyTensor (filter_as fo));
           ("as_resampled", PyTensor (as_resampled so))]).

(** The defaults of the keyword arguments of [elbo]. *)
Definition elbo_default (self : KalmanVariationalAutoencoder)
    (xs : Tensor) (sample_control : SampleControl) (observation_mask : option Tensor)
  : M (Tensor * gmap string pyval) :=
  elbo self xs sample_control observation_mask 0.3 1.0 1.0 0.0 true true 0.

(** *** [KalmanVariationalAutoencoder.predict_future] *)

Definition predict_future (self : KalmanVariationalAutoencoder)
    (xs : Tensor) (num_steps : Z) (sample_control : SampleControl)
    (symmetrize_covariance : bool)
  : M (Tensor * gmap string pyval) :=
  seq_length ← shape_at xs 0;
  batch_size ← shape_at xs 1;
  as_distrib ← call (self_encoder self) (fun x _ => CallEncoder x)
                    (reshape xs (-1 :: drop 2 (shape xs)))%Z;
  as_ ← (if decide (encoder sample_control = "sample") then
           a ← draw sample as_distrib;
           mret (view a [seq_length; batch_size; a_dim self])
         else if decide (encoder sample_control = "mean") then
           mret (view (dist_mean as_distrib) [seq_length; batch_size; a_dim self])
         else raise (invalid_encoder sample_control));
  (* Kalman filter and smoother *)
  fo ← call (kalman_filter (state_space_model self)) CallKalmanFilter
         {| fa_as := as_;
            fa_sample_control := sample_control;
            fa_observation_mask := None;
            fa_learn_weight_model := false;
            fa_symmetrize_covariance := symmetrize_covariance;
            fa_burn_in := None |};
  so ← call (kalman_smooth (state_space_model self)) CallKalmanSmooth
         {| sa_as := as_;
            sa_filter_means := filter_means fo;
            sa_filter_covariances := filter_covariances fo;
            sa_filter_next_means := filter_next_means fo;
            sa_filter_next_covariances := filter_next_covariances fo;
            sa_mat_As := mat_As fo;
            sa_mat_Cs := mat_Cs fo;
            sa_sample_control := sample_control;
            sa_symmetrize_covariance := symmetrize_covariance;
            sa_burn_in := None |};
  po ← call (ssm_predict_future (state_space_model self)) CallPredictFuture
         {| pa_as := as_;
            pa_means := means so;
            pa_covariances := covariances so;
            pa_filter_next_means := filter_next_means fo;
            pa_filter_next_covariances := filter_next_covariances fo;
            pa_mat_As := mat_As fo;
            pa_mat_Cs := mat_Cs fo;
            pa_num_steps := num_steps;
            pa_sample_control := sample_control |};
  xs_distrib ← call (self_decoder self) (fun a _ => CallDecoder a)
                    (view (po_as po) [-1; a_dim self])%Z;
  xs ← (if decide (decoder sample_control = "sample") then draw sample xs_distrib
        else if decide (decoder sample_control = "mean") then mret (dist_mean xs_distrib)
        else raise (invalid_decoder sample_control));
  let xs := view xs ((seq_length + num_steps)%Z :: batch_size :: drop 1 (shape xs)) in
  mret (xs,
        list_to_map
          [("as", PyTensor (po_as po));
           ("means", PyTensor (po_means po));
           ("covariances", PyTensor (po_covariances po));
           ("filter_means", PyTensor (filter_means fo));
           ("filter_covariances", PyTensor (filter_covariances fo));
           ("filter_next_means", PyTensor (po_filter_next_means po));
           ("filter_next_covariances", PyTensor (po_filter_next_covariances po));
           ("mat_As", PyTensor (po_mat_As po));
           ("mat_Cs", PyTensor (po_mat_Cs po));
           ("as_filter", PyTensor (filter_as fo));
           ("as_resampled", PyTensor (as_resampled so))]).

(** *** Vocabulary of the statements *)

(** The calls into the state-space model among a list of events. *)
Definition is_recursion (ev : Event) : bool :=
  match ev with
  | CallKalmanFilter _ _ | CallKalmanSmooth _ _ | CallPredictFuture _ _ => true
  | _ => false
  end.

Definition recursions (tr : list Event) : list Event := List.filter is_recursion tr.

Definition valid_mode (mode : string) : Prop := mode = "sample" \/ mode = "mean".

(** The pieces of [elbo], named. *)
Definition encoder_input (xs : Tensor) : Tensor :=
  reshape xs ((-1)%Z :: drop 2 (shape xs)).

Definition filter_args (as_ : Tensor) (sample_control : SampleControl)
    (observation_mask : option Tensor) (learn_weight_model symmetrize_covariance : bool)
    (burn_in : option Z) : FilterArgs :=
  {| fa_as := as_;
     fa_sample_control := sample_control;
     fa_observation_mask := observation_mask;
     fa_learn_weight_model := learn_weight_model;
     fa_symmetrize_covariance := symmetrize_covariance;
     fa_burn_in := burn_in |}.

Definition smooth_args (as_ : Tensor) (fo : FilterOut) (sample_control : SampleControl)
    (symmetrize_covariance : bool) (burn_in : option Z) : SmoothArgs :=
  {| sa_as := as_;
     sa_filter_means := filter_means fo;
     sa_filter_covariances := filter_covariances fo;
     sa_filter_next_means := filter_next_means fo;
     sa_filter_next_covariances := filter_next_covariances fo;
     sa_mat_As := mat_As fo;
     sa_mat_Cs := mat_Cs fo;
     sa_sample_control := sample_control;
     sa_symmetrize_covariance := symmetrize_covariance;
     sa_burn_in := burn_in |}.

Definition predict_args (as_ : Tensor) (fo : FilterOut) (so : SmoothOut) (num_steps : Z)
    (sample_control : SampleControl) : PredictArgs :=
  {| pa_as := as_;
     pa_means := means so;
     pa_covariances := covariances so;
     pa_filter_next_means := filter_next_means fo;
     pa_filter_next_covariances := filter_next_covariances fo;
     pa_mat_As := mat_As fo;
     pa_mat_Cs := mat_Cs fo;
     pa_num_steps := num_steps;
     pa_sample_control := sample_control |}.

(** The smoothed distribution N(means, covariances) built from what the
    smoother returned. *)
Definition smoothed_distribution (self : KalmanVariationalAutoencoder)
    (seq_length batch_size : Z) (so : SmoothOut) : Distribution :=
  MultivariateNormal
    (view (means so) [seq_length; batch_size; z_dim self])
    (view (covariances so) [seq_length; batch_size; z_dim self; z_dim self]).

Definition reconstruction_objective (xs : Tensor) (seq_length batch_size : Z)
    (xs_distrib : Distribution) : Tensor :=
  sum_time_mean_batch
    (view (log_prob xs_distrib (encoder_input xs))
          (seq_length :: batch_size :: drop 2 (shape xs))).

Definition regularization_objective (self : KalmanVariationalAutoencoder)
    (seq_length batch_size : Z) (as_distrib : Distribution) (as_ : Tensor) : Tensor :=
  neg (sum_time_mean_batch
         (view (log_prob as_distrib (view as_ [(-1)%Z; a_dim self]))
               [seq_length; batch_size; a_dim self])).

Definition kl_term (self : KalmanVariationalAutoencoder) (kl_weight : Q)
    (as_distrib : Distribution) : Tensor :=
  if negb (Qeq_bool kl_weight 0.0) then
    neg (sum_dim (mean_dim (sum_dim
      (kl_divergence as_distrib (Normal (zeros (a_dim self)) (ones (a_dim self)))) 0) 0) 0)
  else _zero_val self.

(** ln p(a|z), ln p(z|a) evaluated on a trajectory [z], with the
    observation matrices [Cs]. *)
Definition observation_log_likelihood (self : KalmanVariationalAutoencoder)
    (seq_length batch_size : Z) (Cs z as_ : Tensor) : Tensor :=
  sum_time_mean_batch
    (view (log_prob
             (MultivariateNormal (view (matmul (drop_last Cs) z) [(-1)%Z; a_dim self])
                                 (mat_R (state_space_model self)))
             (view as_ [(-1)%Z; a_dim self]))
          [seq_length; batch_size; (-1)%Z]).

Definition posterior_log_likelihood (self : KalmanVariationalAutoencoder)
    (seq_length batch_size : Z) (so : SmoothOut) (z : Tensor) : Tensor :=
  sum_time_mean_batch
    (view (log_prob (smoothed_distribution self seq_length batch_size so)
                    (view z [(-1)%Z; z_dim self]))
          [seq_length; batch_size; (-1)%Z]).

Definition weighted_objective
    (reconst_weight regularization_weight kalman_weight kl_weight : Q)
    (reconstruction regularization kl observation transition posterior : Tensor) : Tensor :=
  add (add (add (scale reconst_weight reconstruction)
                (scale regularization_weight regularization))
           (scale kl_weight kl))
      (scale kalman_weight (sub (add observation transition) posterior)).

Definition elbo_info
    (reconst_weight regularization_weight kalman_weight kl_weight : Q)
    (observation_mask : option Tensor)
    (reconstruction regularization kl observation transition posterior : Tensor)
    (fo : FilterOut) (so : SmoothOut) (as_ : Tensor) : gmap string pyval :=
  list_to_map
    [("reconst_weight", PyFloat reconst_weight);
     ("regularization_weight", PyFloat regularization_weight);
     ("kalman_weight", PyFloat kalman_weight);
     ("kl_weight", PyFloat kl_weight);
     ("reconstruction", numpy reconstruction);
     ("regularization", numpy regularization);
     ("kl", numpy kl);
     ("kalman_observation_log_likelihood", numpy observation);
     ("kalman_state_transition_log_likelihood", numpy transition);
     ("kalman_posterior_log_likelihood", numpy posterior);
     ("observation_mask", py_optional observation_mask);
     ("filter_means", PyTensor (filter_means fo));
     ("filter_covariances", PyTensor (filter_covariances fo));
     ("filter_next_means", PyTensor (filter_next_means fo));
     ("filter_next_covariances", PyTensor (filter_next_covariances fo));
     ("mat_As", PyTensor (mat_As fo));
     ("mat_Cs", PyTensor (mat_Cs fo));
     ("means", PyTensor (means so));
     ("covariances", PyTensor (covariances so));
     ("as", PyTensor as_);
     ("zs", PyTensor (zs so));
     ("filter_as", PyTensor (filter_as fo));
     ("as_resampled", PyTensor (as_resampled so))].

(** How the features [as_] were obtained from the encoder's distribution,
    and the events that left. *)
Definition encoded_by (sampler : Distribution -> RngState -> Tensor * RngState)
    (self : KalmanVariationalAutoencoder) (xs : Tensor) (sample_control : SampleControl)
    (seq_length batch_size : Z) (as_distrib : Distribution) (as_ : Tensor)
    (g : RngState) (pre : list Event) : Prop :=
  (encoder sample_control = "sample"
   /\ as_ = view (sampler as_distrib g).1 [seq_length; batch_size; a_dim self]
   /\ pre = [CallEncoder (encoder_input xs); Draw as_distrib (sampler as_distrib g).1])
  \/ (encoder sample_control = "mean"
      /\ as_ = view (dist_mean as_distrib) [seq_length; batch_size; a_dim self]
      /\ pre = [CallEncoder (encoder_input xs)]).

(** The state of the default generator once the features are encoded: the
    encoder's distribution is drawn from in sample mode only. *)
Definition rng_after_encoding (sampler : Distribution -> RngState -> Tensor * RngState)
    (sample_control : SampleControl) (as_distrib : Distribution) (g : RngState) : RngState :=
  if decide (encoder sample_control = "sample") then (sampler as_distrib g).2 else g.


(** The pieces of [predict_future], named. *)
Definition predict_info (fo : FilterOut) (so : SmoothOut) (po : PredictOut)
  : gmap string pyval :=
  list_to_map
    [("as", PyTensor (po_as po));
     ("means", PyTensor (po_means po));
     ("covariances", PyTensor (po_covariances po));
     ("filter_means", PyTensor (filter_means fo));
     ("filter_covariances", PyTensor (filter_covariances fo));
     ("filter_next_means", PyTensor (po_filter_next_means po));
     ("filter_next_covariances", PyTensor (po_filter_next_covariances po));
     ("mat_As", PyTensor (po_mat_As po));
     ("mat_Cs", PyTensor (po_mat_Cs po));
     ("as_filter", PyTensor (filter_as fo));
     ("as_resampled", PyTensor (as_resampled so))].

(** How the predicted frames were obtained from the decoder's
    distribution, and the events that left. *)
Definition decoded_by (sample_control : SampleControl) (seq_length batch_size num_steps : Z)
    (xs_distrib : Distribution) (frames : Tensor) (g : RngState) (post : list Event) : Prop :=
  (decoder sample_control = "sample"
   /\ frames = view (sample xs_distrib g).1
                    ((seq_length + num_steps)%Z :: batch_size
                       :: drop 1 (shape (sample xs_distrib g).1))
   /\ post = [Draw xs_distrib (sample xs_distrib g).1])
  \/ (decoder sample_control = "mean"
      /\ frames = view (dist_mean xs_distrib)
                       ((seq_length + num_steps)%Z :: batch_size
                          :: drop 1 (shape (dist_mean xs_distrib)))
      /\ post = []).


(** The three Kalman terms stored in [info] are evaluated on the trajectory
    [z], with the matrices of the filter output [fo] and the smoothed
    distribution of the smoother output [so]. *)
Definition kalman_terms_on (self : KalmanVariationalAutoencoder) (xs : Tensor)
    (info : gmap string pyval) (evs : list Event)
    (fo : FilterOut) (so : SmoothOut) (z : Tensor) : Prop :=
  exists (seq_length batch_size : Z) (as_ transition : Tensor),
    shape xs !! 0 = Some seq_length /\ shape xs !! 1 = Some batch_size
    /\ info !! "as" = Some (PyTensor as_)
    /\ CallTransitionLL (z, mat_As fo) (Ok transition) ∈ evs
    /\ info !! "kalman_observation_log_likelihood"
       = Some (numpy (observation_log_likelihood self seq_length batch_size
                        (mat_Cs fo) z as_))
    /\ info !! "kalman_state_transition_log_likelihood" = Some (numpy transition)
    /\ info !! "kalman_posterior_log_likelihood"
       = Some (numpy (posterior_log_likelihood self seq_length batch_size so z)).

(** The reading of the specification in which the trajectory of the three
    terms is the one the smoother drew by backward sampling. *)
Definition kalman_terms_on_backward_sample {A} (self : KalmanVariationalAutoencoder)
    (xs : Tensor) (m : M (A * gmap string pyval)) (w : World) : Prop :=
  forall (r : A) (info : gmap string pyval) (w' : World),
    m w = (Ok (r, info), w') ->
    exists (fa : FilterArgs) (fo : FilterOut) (sa : SmoothArgs) (so : SmoothOut),
      CallKalmanFilter fa (Ok fo) ∈ trace w'
      /\ CallKalmanSmooth sa (Ok so) ∈ trace w'
      /\ kalman_terms_on self xs info (trace w') fo so (zs so).

(** A run that raises without having entered the filter, the smoother or
    the predictor. *)
Definition fails_before_recursion {A} (m : M A) (w : World) : Prop :=
  exists (e : exn) (w' : World),
    m w = (Raise e, w') /\ recursions (trace w') = recursions (trace w).

Definition invalid_configuration (sample_control : SampleControl) : Prop :=
  ~ valid_mode (encoder sample_control) \/ ~ valid_mode (decoder sample_control).

(** The reading of the specification in which every invalid configuration
    makes both public operations fail before any recursion. *)
Definition fail_fast {A B} (sample_control : SampleControl) (run_elbo : M A)
    (run_predict_future : M B) (w : World) : Prop :=
  invalid_configuration sample_control ->
  fails_before_recursion run_elbo w /\ fails_before_recursion run_predict_future w.

(** What a call returns is a function of its arguments alone. *)
Definition reproducible_from_arguments {A} (m : M A) : Prop :=
  forall w1 w2 : World, (m w1).1 = (m w2).1.

(** What a call returns, and the generator it leaves, are a function of
    its arguments and of the state of the default generator. *)
Definition reproducible_from_generator {A} (m : M A) : Prop :=
  forall w1 w2 : World,
    rng w1 = rng w2 -> (m w1).1 = (m w2).1 /\ rng (m w1).2 = rng (m w2).2.

End Model.

(** *** The state-transition likelihood, from the specification

    [elbo] adds to its objective what
    [state_space_model.state_transition_log_likelihood] returns; its body is
    in [state_space_model.py], which is not part of the sources. *)
Section TransitionLikelihood.
Context `{Torch}.
(** [t[1:]] and the process noise covariance Q of the state-space model:
    neither is read by [elbo] or [predict_future]. *)
Variable drop_first : Tensor -> Tensor.
Variable mat_Q : Tensor.

(** Modelled from the spec: the per-step transition log-densities
    log N(z_sample[t+1]; A[t] z_sample[t], Q), for the steps t that have a
    successor and for every batch element. *)
Definition transition_log_densities (zs_sample mat_As : Tensor) : Tensor :=
  log_prob (MultivariateNormal (matmul (drop_last mat_As) (drop_last zs_sample)) mat_Q)
           (drop_first zs_sample).

(** Modelled from the spec: [state_transition_log_likelihood(z_sample, A)],
    "sum over t of log N(z_sample[t+1]; A[t] z_sample[t], Q), batched and
    reduced (sum over time, mean over batch)". It neither raises nor
    draws. *)
Definition spec_state_transition_log_likelihood : Collaborator (Tensor * Tensor) Tensor :=
  fun args g =>
    (Ok (mean_dim (sum_dim (transition_log_densities args.1 args.2) 0) 0), g).
End TransitionLikelihood.

(** *** A symbolic instance

    Tensors are the expressions that compute them: every operation builds a
    term, every draw consumes one numbered noise variable. Two runs agree
    on a value in this instance only when the code computes it by the same
    operations from the same inputs and the same draws. *)
Module Symbolic.

#[local] Unset Elimination Schemes.
Inductive term : Type :=
  | Input (name : string) (dims : list Z)
  | Num (q : Q)
  | Dim (z : Z)
  | Noise (n : nat)
  | Op (op : string) (args : list term).
#[local] Set Elimination Schemes.

Definition sym_shape (t : term) : list Z :=
  match t with Input _ dims => dims | _ => [] end.

Definition sym_draw (kind : string) (d : term) (g : nat) : term * nat :=
  (Op kind [d; Noise g], S g).

Definition sym_torch : Torch := {|
  Tensor := term;
  Distribution := term;
  RngState := nat;
  shape := sym_shape;
  reshape := fun t dims => Op "reshape" (t :: map Dim dims);
  view := fun t dims => Op "view" (t :: map Dim dims);
  sum_dim := fun t d => Op "sum" [t; Dim d];
  mean_dim := fun t d => Op "mean" [t; Dim d];
  sum_all := fun t => Op "sum" [t];
  neg := fun t => Op "neg" [t];
  add := fun a b => Op "add" [a; b];
  sub := fun a b => Op "sub" [a; b];
  scale := fun c t => Op "mul" [Num c; t];
  matmul := fun a b => Op "matmul" [a; b];
  drop_last := fun t => Op "drop_last" [t];
  zeros := fun n => Op "zeros" [Dim n];
  ones := fun n => Op "ones" [Dim n];
  Normal := fun loc sc => Op "Normal" [loc; sc];
  MultivariateNormal := fun loc cov => Op "MultivariateNormal" [loc; cov];
  dist_mean := fun d => Op "mean_of" [d];
  log_prob := fun d x => Op "log_prob" [d; x];
  kl_divergence := fun p q => Op "kl_divergence" [p; q];
  rsample := sym_draw "rsample";
  sample := sym_draw "sample";
|}.
#[local] Existing Instance sym_torch.

Definition opt_term (t : option term) : list term :=
  match t with Some t => [t] | None => [] end.

(** A state-space model whose filter and predictor are deterministic and
    whose smoother draws once, for its backward sampling pass. *)
Definition sym_filter_out (args : FilterArgs) : FilterOut :=
  let inputs := fa_as args :: opt_term (fa_observation_mask args) in
  {| filter_means := Op "filter_means" inputs;
     filter_covariances := Op "filter_covariances" inputs;
     filter_next_means := Op "filter_next_means" inputs;
     filter_next_covariances := Op "filter_next_covariances" inputs;
     mat_As := Op "mat_As" inputs;
     mat_Cs := Op "mat_Cs" inputs;
     filter_as := Op "filter_as" inputs |}.

Definition sym_smooth_out (args : SmoothArgs) (g : nat) : SmoothOut :=
  let inputs := [sa_as args; sa_filter_means args; sa_filter_covariances args;
                 sa_filter_next_means args; sa_filter_next_covariances args;
                 sa_mat_As args; sa_mat_Cs args] in
  {| means := Op "smoothed_means" inputs;
     covariances := Op "smoothed_covariances" inputs;
     zs := Op "backward_sample" (inputs ++ [Noise g]);
     as_resampled := Op "as_resampled" (inputs ++ [Noise g]) |}.

Definition sym_predict_out (args : PredictArgs) : PredictOut :=
  let inputs := [pa_as args; pa_means args; pa_covariances args;
                 pa_filter_next_means args; pa_filter_next_covariances args;
                 pa_mat_As args; pa_mat_Cs args; Dim (pa_num_steps args)] in
  {| po_as := Op "future_as" inputs;
     po_means := Op "future_means" inputs;
     po_covariances := Op "future_covariances" inputs;
     po_filter_next_means := Op "future_filter_next_means" inputs;
     po_filter_next_covariances := Op "future_filter_next_covariances" inputs;
     po_mat_As := Op "future_mat_As" inputs;
     po_mat_Cs := Op "future_mat_Cs" inputs |}.

Definition sym_transition (args : term * term) : term :=
  Op "state_transition_log_likelihood" [args.1; args.2].

Definition sym_ssm : StateSpaceModel := {|
  K := 3;
  mat_R := Input "mat_R" [2; 2]%Z;
  kalman_filter := fun args g => (Ok (sym_filter_out args), g);
  kalman_smooth := fun args g => (Ok (sym_smooth_out args g), S g);
  ssm_predict_future := fun args g => (Ok (sym_predict_out args), g);
  state_transition_log_likelihood := fun args g => (Ok (sym_transition args), g);
|}.

Definition sym_model (is_training : bool) : KalmanVariationalAutoencoder := {|
  self_encoder := fun x g => (Ok (Op "encoder" [x]), g);
  self_decoder := fun a g => (Ok (Op "decoder" [a]), g);
  state_space_model := sym_ssm;
  a_dim := 2;
  z_dim := 4;
  _zero_val := Num 0;
  training := is_training;
|}.

(** A batch of two sequences of four 16x16 single-channel frames. *)
Definition sym_xs : term := Input "xs" [4; 2; 1; 16; 16]%Z.

Definition sym_world (g : nat) : World := {| rng := g; trace := [] |}.


Definition sample_mode : SampleControl := {| encoder := "sample"; decoder := "sample" |}.
Definition mean_mode : SampleControl := {| encoder := "mean"; decoder := "mean" |}.
(** Two configurations with a mode that does not exist. *)
Definition bad_encoder_mode : SampleControl := {| encoder := "median"; decoder := "sample" |}.
Definition bad_decoder_mode : SampleControl := {| encoder := "sample"; decoder := "median" |}.

(** The noise variables a term depends on. *)
Fixpoint noises (t : term) : list nat :=
  match t with
  | Noise n => [n]
  | Op _ args => concat (map noises args)
  | _ => []
  end.

Definition returned_noises {A} (r : result (term * A)) : list nat :=
  match r with Ok (t, _) => noises t | Raise _ => [] end.


(** A run of [elbo] with its default keyword arguments, in evaluation
    state, from an empty history: the values it computes, in order. The
    encoder's [rsample] takes noise 0, the smoother's backward sampling
    noise 1, and the [rsample] of [elbo] from the smoothed distribution
    noise 2. Each value is kept evaluated, as the term it is. *)
Definition sym_as_distrib : term := Eval cbv in Op "encoder" [encoder_input sym_xs].
Definition sym_as : term := Eval cbv in view (rsample sym_as_distrib 0).1 [4; 2; 2]%Z.
Definition sym_xs_distrib : term := Eval cbv in Op "decoder" [view sym_as [-1; 2]%Z].
Definition sym_filter_args : FilterArgs :=
  Eval cbv in filter_args sym_as sample_mode None true true (Some 0%Z).
Definition sym_fo : FilterOut := Eval cbv in sym_filter_out sym_filter_args.
Definition sym_smooth_args : SmoothArgs :=
  Eval cbv in smooth_args sym_as sym_fo sample_mode true (Some 0%Z).
Definition sym_so : SmoothOut := Eval cbv in sym_smooth_out sym_smooth_args 1.
Definition sym_zs_distrib : term :=
  Eval cbv in smoothed_distribution (sym_model false) 4 2 sym_so.
Definition sym_zs_sample : term := Eval cbv in (rsample sym_zs_distrib 2).1.
Definition sym_transition_ll : term :=
  Eval cbv in sym_transition (sym_zs_sample, mat_As sym_fo).

Definition sym_reconstruction : term :=
  Eval cbv in reconstruction_objective sym_xs 4 2 sym_xs_distrib.
Definition sym_regularization : term :=
  Eval cbv in regularization_objective (sym_model false) 4 2 sym_as_distrib sym_as.
Definition sym_kl : term := Eval cbv in kl_term (sym_model false) 0.0 sym_as_distrib.
Definition sym_observation_ll : term :=
  Eval cbv in
    observation_log_likelihood (sym_model false) 4 2 (mat_Cs sym_fo) sym_zs_sample sym_as.
Definition sym_posterior_ll : term :=
  Eval cbv in posterior_log_likelihood (sym_model false) 4 2 sym_so sym_zs_sample.

Definition sym_objective : term :=
  Eval cbv in
    weighted_objective 0.3 1.0 1.0 0.0 sym_reconstruction sym_regularization sym_kl
      sym_observation_ll sym_transition_ll sym_posterior_ll.

Definition sym_info : gmap string pyval :=
  elbo_info 0.3 1.0 1.0 0.0 None sym_reconstruction sym_regularization sym_kl
    sym_observation_ll sym_transition_ll sym_posterior_ll sym_fo sym_so sym_as.

Definition sym_trace : list Event :=
  [CallEncoder (Op "reshape" [sym_xs; Dim (-1); Dim 1; Dim 16; Dim 16]);
   Draw sym_as_distrib (Op "rsample" [sym_as_distrib; Noise 0]);
   CallDecoder (Op "view" [sym_as; Dim (-1); Dim 2]);
   CallKalmanFilter sym_filter_args (Ok sym_fo);
   CallKalmanSmooth sym_smooth_args (Ok sym_so);
   Draw sym_zs_distrib sym_zs_sample;
   CallTransitionLL (sym_zs_sample, mat_As sym_fo) (Ok sym_transition_ll)].

Definition sym_final : World := {| rng := 3; trace := sym_trace |}.

(** A world with the same generator state as [sym_world 0] and another
    history. *)
Definition sym_later_world : World := {| rng := 0; trace := sym_trace |}.

(** A run of [predict_future] for three steps, in mean mode, with the
    model in training state. *)
Definition sym_mean_as : term := Eval cbv in view (dist_mean sym_as_distrib) [4; 2; 2]%Z.
Definition sym_mean_filter_args : FilterArgs :=
  Eval cbv in filter_args sym_mean_as mean_mode None false true None.
Definition sym_mean_fo : FilterOut := Eval cbv in sym_filter_out sym_mean_filter_args.
Definition sym_mean_smooth_args : SmoothArgs :=
  Eval cbv in smooth_args sym_mean_as sym_mean_fo mean_mode true None.
Definition sym_mean_so : SmoothOut := Eval cbv in sym_smooth_out sym_mean_smooth_args 0.
Definition sym_mean_predict_args : PredictArgs :=
  Eval cbv in predict_args sym_mean_as sym_mean_fo sym_mean_so 3 mean_mode.
Definition sym_mean_po : PredictOut := Eval cbv in sym_predict_out sym_mean_predict_args.
Definition sym_mean_xs_distrib : term :=
  Eval cbv in Op "decoder" [view (po_as sym_mean_po) [-1; 2]%Z].

Definition sym_frames : term := Eval cbv in view (dist_mean sym_mean_xs_distrib) [7; 2]%Z.

Definition sym_predict_info : gmap string pyval :=
  predict_info sym_mean_fo sym_mean_so sym_mean_po.

Definition sym_predict_trace : list Event :=
  [CallEncoder (Op "reshape" [sym_xs; Dim (-1); Dim 1; Dim 16; Dim 16]);
   CallKalmanFilter sym_mean_filter_args (Ok sym_mean_fo);
   CallKalmanSmooth sym_mean_smooth_args (Ok sym_mean_so);
   CallPredictFuture sym_mean_predict_args (Ok sym_mean_po);
   CallDecoder (Op "view" [po_as sym_mean_po; Dim (-1); Dim 2])].

Definition sym_predict_final : World := {| rng := 1; trace := sym_predict_trace |}.

(** A run of [predict_future] for three steps with the unknown decoder mode
    "median": the encoder's [sample] takes noise 0 and the smoother's
    backward sampling noise 1. *)
Definition sym_bad_as : term := Eval cbv in view (sample sym_as_distrib 0).1 [4; 2; 2]%Z.
Definition sym_bad_pre : list Event :=
  Eval cbv in [CallEncoder (encoder_input sym_xs);
               Draw sym_as_distrib (sample sym_as_distrib 0).1].
Definition sym_bad_fo : FilterOut :=
  Eval cbv in sym_filter_out (filter_args sym_bad_as bad_decoder_mode None false true None).
Definition sym_bad_so : SmoothOut :=
  Eval cbv in sym_smooth_out (smooth_args sym_bad_as sym_bad_fo bad_decoder_mode true None) 1.
Definition sym_bad_po : PredictOut :=
  Eval cbv in sym_predict_out (predict_args sym_bad_as sym_bad_fo sym_bad_so 3
                                 bad_decoder_mode).
Definition sym_bad_xs_distrib : term :=
  Eval cbv in Op "decoder" [view (po_as sym_bad_po) [-1; 2]%Z].

(** The same model with the state-transition likelihood of the
    specification, over a symbolic [t[1:]] and process noise, and its run of
    [elbo]: only the transition term differs from the run above. *)
Definition sym_drop_first (t : term) : term := Op "drop_first" [t].
Definition sym_mat_Q : term := Input "mat_Q" [4; 4]%Z.

Definition sym_spec_ssm : StateSpaceModel := {|
  K := 3;
  mat_R := Input "mat_R" [2; 2]%Z;
  kalman_filter := fun args g => (Ok (sym_filter_out args), g);
  kalman_smooth := fun args g => (Ok (sym_smooth_out args g), S g);
  ssm_predict_future := fun args g => (Ok (sym_predict_out args), g);
  state_transition_log_likelihood :=
    spec_state_transition_log_likelihood sym_drop_first sym_mat_Q;
|}.

Definition sym_spec_model : KalmanVariationalAutoencoder := {|
  self_encoder := fun x g => (Ok (Op "encoder" [x]), g);
  self_decoder := fun a g => (Ok (Op "decoder" [a]), g);
  state_space_model := sym_spec_ssm;
  a_dim := 2;
  z_dim := 4;
  _zero_val := Num 0;
  training := false;
|}.

Definition sym_spec_transition_ll : term :=
  Eval cbv in
    mean_dim (sum_dim (transition_log_densities sym_drop_first sym_mat_Q
                         sym_zs_sample (mat_As sym_fo)) 0) 0.

Definition sym_spec_objective : term :=
  Eval cbv in
    weighted_objective 0.3 1.0 1.0 0.0 sym_reconstruction sym_regularization sym_kl
      sym_observation_ll sym_spec_transition_ll sym_posterior_ll.

Definition sym_spec_info : gmap string pyval :=
  elbo_info 0.3 1.0 1.0 0.0 None sym_reconstruction sym_regularization sym_kl
    sym_observation_ll sym_spec_transition_ll sym_posterior_ll sym_fo sym_so sym_as.

Definition sym_spec_trace : list Event :=
  [CallEncoder (Op "reshape" [sym_xs; Dim (-1); Dim 1; Dim 16; Dim 16]);
   Draw sym_as_distrib (Op "rsample" [sym_as_distrib; Noise 0]);
   CallDecoder (Op "view" [sym_as; Dim (-1); Dim 2]);
   CallKalmanFilter sym_filter_args (Ok sym_fo);
   CallKalmanSmooth sym_smooth_args (Ok sym_so);
   Draw sym_zs_distrib sym_zs_sample;
   CallTransitionLL (sym_zs_sample, mat_As sym_fo) (Ok sym_spec_transition_ll)].

Definition sym_spec_final : World := {| rng := 3; trace := sym_spec_trace |}.

End Symbolic.

End KalmanVAE.

(** * Theorems *)

Import Evaluation.

(** ** The masks *)

Lemma py_index_nonneg (len : nat) (i : nat) :
  i < len -> py_index len (Z.of_nat i) = Some i.
Proof.
  intros Hi. unfold py_index.
  destruct (decide (0 <= Z.of_nat i < Z.of_nat len)%Z) as [_|Hn]; [|lia].
  by rewrite Nat2Z.id.
Qed.

Lemma py_index_first (len : nat) :
  0 < len -> py_index len 0 = Some 0.
Proof. intros Hlen. by apply (py_index_nonneg len 0). Qed.

Lemma py_index_last (len : nat) :
  0 < len -> py_index len (-1) = Some (len - 1).
Proof.
  intros Hlen. unfold py_index.
  destruct (decide (0 <= -1 < Z.of_nat len)%Z) as [Hn|_]; [lia|].
  destruct (decide (- Z.of_nat len <= -1 < 0)%Z) as [_|Hn]; [|lia].
  f_equal. lia.
Qed.

Lemma list_setitem_nonneg {A} (lst : list A) (i : nat) (x : A) :
  i < length lst -> list_setitem lst (Z.of_nat i) x = Ok (<[i := x]> lst).
Proof. intros Hi. unfold list_setitem. by rewrite py_index_nonneg. Qed.

(** The loop of [create_continuous_mask], started after [a] of its
    iterations: the block of zeros grows by one per iteration. *)
Lemma continuous_mask_loop (start : Z) (s st : nat) (n a : nat) :
  start = Z.of_nat st -> st + a + n <= s ->
  for_each (fun lst i => list_setitem lst i 0%Q)
           (map (fun k => (start + Z.of_nat k)%Z) (seq a n))
           (replicate st 1%Q ++ replicate a 0%Q ++ replicate (s - st - a) 1%Q)
  = Ok (replicate st 1%Q ++ replicate (a + n) 0%Q ++ replicate (s - st - (a + n)) 1%Q).
Proof.
  intros ->. revert a. induction n as [|n IH]; intros a Hle; simpl.
  - by rewrite Nat.add_0_r.
  - replace (Z.of_nat st + Z.of_nat a)%Z with (Z.of_nat (st + a)) by lia.
    rewrite list_setitem_nonneg by (rewrite !length_app, !length_replicate; lia).
    cbn [mbind result_bind].
    replace (s - st - a) with (S (s - st - S a)) by lia.
    rewrite insert_app_r_alt by (rewrite length_replicate; lia).
    rewrite length_replicate.
    rewrite insert_app_r_alt by (rewrite length_replicate; lia).
    rewrite length_replicate.
    replace (st + a - st - a) with 0 by lia. simpl.
    specialize (IH (S a) ltac:(lia)).
    replace (a + S n) with (S a + n) by lia.
    rewrite <- IH. f_equal.
    rewrite replicate_S_end, <- app_assoc. done.
Qed.

Lemma nth_replicate_lt {A} (n i : nat) (x d : A) :
  i < n -> nth i (replicate n x) d = x.
Proof. intros Hi. by apply nth_lookup_Some, lookup_replicate_2. Qed.

Lemma nth_block (st m r j : nat) :
  j < st + m + r ->
  nth j (replicate st 1%Q ++ replicate m 0%Q ++ replicate r 1%Q) 0%Q
  = if decide (st <= j < st + m) then 0%Q else 1%Q.
Proof.
  intros Hj.
  destruct (decide (j < st)) as [Hlt|Hge].
  - rewrite app_nth1 by (rewrite length_replicate; lia).
    rewrite nth_replicate_lt by lia. destruct (decide _); [lia|done].
  - rewrite app_nth2 by (rewrite length_replicate; lia).
    rewrite length_replicate.
    destruct (decide (j - st < m)) as [Hlt|Hge'].
    + rewrite app_nth1 by (rewrite length_replicate; lia).
      rewrite nth_replicate_lt by lia. destruct (decide _); [done|lia].
    + rewrite app_nth2 by (rewrite length_replicate; lia).
      rewrite length_replicate, nth_replicate_lt by lia.
      destruct (decide _); [lia|done].
Qed.

Lemma transpose_repeat_rows (lst : list Q) (batch_size : nat) :
  transpose (length lst) (repeat_rows lst batch_size)
  = map (fun x => replicate batch_size x) lst.
Proof.
  unfold transpose, repeat_rows.
  apply list_eq. intros j. rewrite !list_lookup_fmap.
  destruct (decide (j < length lst)) as [Hlt|Hge].
  - rewrite lookup_seq_lt by done. simpl.
    destruct (lookup_lt_is_Some_2 lst j Hlt) as [x Hx]. rewrite Hx. simpl.
    f_equal. induction batch_size as [|b IH]; simpl; [done|].
    by rewrite IH, (nth_lookup_Some _ _ 0%Q _ Hx).
  - rewrite lookup_seq_ge by lia. by rewrite lookup_ge_None_2 by lia.
Qed.

Lemma count_zeros_block (st m r : nat) :
  count_zeros (replicate st 1%Q ++ replicate m 0%Q ++ replicate r 1%Q) = m.
Proof.
  unfold count_zeros. rewrite !List.filter_app, !length_app.
  assert (Hone : forall n, length (List.filter (fun x => Qeq_bool x 0) (replicate n 1%Q)) = 0)
    by (induction n; done).
  assert (Hzero : forall n, length (List.filter (fun x => Qeq_bool x 0) (replicate n 0%Q)) = n)
    by (induction n as [|n IHn]; simpl; [done | by rewrite IHn]).
  rewrite !Hone, Hzero. lia.
Qed.

Lemma column_of_replicated (lst : list Q) (batch_size b : nat) :
  b < batch_size -> column b (map (fun x => replicate batch_size x) lst) = lst.
Proof.
  intros Hb. unfold column. rewrite map_map.
  induction lst as [|x lst IH]; simpl; [done|].
  by rewrite nth_replicate_lt, IH.
Qed.

(** C10: for seq_length >= 1 and 0 <= mask_length <= seq_length,
    [create_continuous_mask] returns a tensor of [seq_length] rows and
    [batch_size] columns, every row constant across the batch, equal to 0
    exactly on the rows start .. start + mask_length - 1 with
    start = (seq_length - mask_length) // 2 and to 1 elsewhere; every
    column holds exactly [mask_length] zeros. *)
Theorem create_continuous_mask_spec (seq_length mask_length : Z) (batch_size : nat) :
  (1 <= seq_length)%Z -> (0 <= mask_length <= seq_length)%Z ->
  let start := ((seq_length - mask_length) / 2)%Z in
  exists mask : Tensor2,
    create_continuous_mask seq_length mask_length batch_size = Ok mask
    /\ length mask = Z.to_nat seq_length
    /\ (forall (t : nat) (row : list Q), mask !! t = Some row ->
          row = replicate batch_size
                  (if decide (start <= Z.of_nat t < start + mask_length)%Z
                   then 0%Q else 1%Q))
    /\ (forall b : nat, b < batch_size ->
          count_zeros (column b mask) = Z.to_nat mask_length).
Proof.
  intros Hseq Hmask start.
  assert (Hstart : (0 <= start /\ start + mask_length <= seq_length)%Z).
  { pose proof (Z.div_pos (seq_length - mask_length) 2 ltac:(lia) ltac:(lia)).
    pose proof (Z.mul_div_le (seq_length - mask_length) 2 ltac:(lia)).
    subst start. lia. }
  set (s := Z.to_nat seq_length). set (st := Z.to_nat start).
  set (m := Z.to_nat mask_length).
  set (lst := replicate st 1%Q ++ replicate m 0%Q ++ replicate (s - st - m) 1%Q).
  assert (Hlen : length lst = s)
    by (subst lst; rewrite !length_app, !length_replicate; lia).
  assert (Hrun : create_continuous_mask seq_length mask_length batch_size
                 = Ok (map (fun x => replicate batch_size x) lst)).
  { unfold create_continuous_mask, py_range. fold start.
    replace (start + mask_length - start)%Z with mask_length by lia. fold m s.
    pose proof (continuous_mask_loop start s st m 0 ltac:(lia) ltac:(lia)) as Hloop.
    simpl replicate at 2 in Hloop. rewrite Nat.sub_0_r in Hloop.
    replace (replicate st 1%Q ++ [] ++ replicate (s - st) 1%Q)
      with (replicate s 1%Q) in Hloop
      by (simpl; rewrite <- replicate_add; f_equal; lia).
    rewrite Hloop. simpl. fold lst. by rewrite transpose_repeat_rows. }
  exists (map (fun x => replicate batch_size x) lst).
  split; [done|]. split; [by rewrite length_map|]. split.
  - intros t row Ht. rewrite list_lookup_fmap in Ht.
    destruct (lst !! t) as [x|] eqn:Hx; [|done]. simpl in Ht.
    injection Ht as <-. f_equal.
    pose proof (lookup_lt_Some _ _ _ Hx) as Hlt.
    rewrite <- (nth_lookup_Some _ _ 0%Q _ Hx). subst lst.
    rewrite nth_block by lia.
    destruct (decide (st <= t < st + m)), (decide (start <= Z.of_nat t < start + mask_length)%Z);
      try done; lia.
  - intros b Hb. rewrite column_of_replicated by done.
    subst lst. apply count_zeros_block.
Qed.

Lemma create_continuous_mask_spec_witness :
  exists mask : Tensor2,
    create_continuous_mask 6 2 2 = Ok mask
    /\ length mask = 6
    /\ (forall (t : nat) (row : list Q), mask !! t = Some row ->
          row = replicate 2 (if decide (2 <= Z.of_nat t < 2 + 2)%Z then 0%Q else 1%Q))
    /\ (forall b : nat, b < 2 -> count_zeros (column b mask) = 2).
Proof. apply (create_continuous_mask_spec 6 2 2); lia. Defined.

Example create_continuous_mask_6_2 :
  create_continuous_mask 6 2 2
  = Ok [[1; 1]; [1; 1]; [0; 0]; [0; 0]; [1; 1]; [1; 1]]%Q.
Proof. reflexivity. Qed.

(** Outside the range of C10 the loop indexes from the end of the list and
    then runs off it. *)
Example create_continuous_mask_too_long :
  create_continuous_mask 4 6 1
  = Raise (IndexError "list assignment index out of range").
Proof. reflexivity. Qed.

Lemma ge_to_dtype_rand (g : Generator) (rows cols : nat) (mask_rate : Q) :
  let m := ge_to_dtype (torch_rand g rows cols).1 mask_rate in
  length m = rows /\ Forall (binary_row cols) m.
Proof.
  unfold ge_to_dtype, torch_rand. simpl. split.
  - by rewrite !length_map, length_seq.
  - rewrite map_map. apply Forall_forall. intros row Hrow.
    apply list_elem_of_In, in_map_iff in Hrow as (t & <- & _). split.
    + by rewrite !length_map, length_seq.
    + rewrite map_map. apply Forall_forall. intros x Hx.
      apply list_elem_of_In, in_map_iff in Hx as (b & <- & _).
      destruct (Qle_bool _ _); auto.
Qed.

Lemma fill_row_ones (cols : nat) (row : list Q) :
  length row = cols -> map (fun _ => 1%Q) row = replicate cols 1%Q.
Proof. intros <-. induction row as [|x row IH]; simpl; [done | by rewrite IH]. Qed.

Lemma binary_row_fill (cols : nat) (row : list Q) :
  binary_row cols row -> binary_row cols (map (fun _ => 1%Q) row).
Proof.
  intros [Hlen _]. rewrite (fill_row_ones cols) by done. split.
  - apply length_replicate.
  - apply Forall_forall. intros x Hx. apply elem_of_replicate in Hx as [-> _]. auto.
Qed.

Lemma row_fill_ok (mask : Tensor2) (i : Z) (k : nat) (v : Q) :
  py_index (length mask) i = Some k ->
  row_fill mask i v = Ok (alter (map (fun _ => v)) k mask).
Proof. intros Hk. unfold row_fill. by rewrite Hk. Qed.

(** [create_random_mask] on any tensor with at least one row. *)
Lemma create_random_mask_rows (seq_length batch_size : nat) (mask_rate : Q) (g : Generator) :
  1 <= seq_length ->
  exists mask : Tensor2,
    (create_random_mask seq_length batch_size mask_rate g).1 = Ok mask
    /\ length mask = seq_length
    /\ Forall (binary_row batch_size) mask
    /\ mask !! 0 = Some (replicate batch_size 1%Q)
    /\ mask !! (seq_length - 1) = Some (replicate batch_size 1%Q).
Proof.
  intros Hseq. unfold create_random_mask.
  destruct (torch_rand g seq_length batch_size) as [u g'] eqn:Hu.
  pose proof (ge_to_dtype_rand g seq_length batch_size mask_rate) as [Hlen Hbin].
  rewrite Hu in Hlen, Hbin. simpl in Hlen, Hbin.
  set (m := ge_to_dtype u mask_rate) in *. simpl.
  rewrite (row_fill_ok m 0 0) by (apply py_index_first; lia).
  cbn [mbind result_bind].
  rewrite (row_fill_ok _ (-1) (seq_length - 1))
    by (rewrite length_alter, Hlen; apply py_index_last; lia).
  eexists. split; [done|].
  assert (Hfill : forall k (l : Tensor2), Forall (binary_row batch_size) l ->
            Forall (binary_row batch_size) (alter (map (fun _ => 1%Q)) k l)).
  { intros k l Hl. apply Forall_alter; [done|].
    intros row _ Hrow. by apply binary_row_fill. }
  assert (Hrow : forall k (l : Tensor2), Forall (binary_row batch_size) l -> k < length l ->
            alter (map (fun _ => 1%Q)) k l !! k = Some (replicate batch_size 1%Q)).
  { intros k l Hl Hk. rewrite list_lookup_alter_eq.
    destruct (lookup_lt_is_Some_2 l k Hk) as [row Hr]. rewrite Hr. simpl. f_equal.
    apply fill_row_ones.
    by apply (Forall_lookup_1 _ _ _ _ Hl Hr). }
  split; [by rewrite !length_alter|]. split; [by apply Hfill, Hfill|]. split.
  - destruct (decide (seq_length - 1 = 0)) as [->|Hne].
    + apply Hrow; [by apply Hfill | rewrite length_alter; lia].
    + rewrite list_lookup_alter_ne by done. apply Hrow; [done|lia].
  - apply Hrow; [by apply Hfill | rewrite length_alter; lia].
Qed.

(** C9: for seq_length >= 2, batch_size >= 1 and mask_rate in [0, 1], whatever
    the generator draws, [create_random_mask] returns a tensor of
    [seq_length] rows of [batch_size] entries, all 0 or 1, whose first and
    last rows are all ones. *)
Theorem create_random_mask_spec (seq_length batch_size : nat) (mask_rate : Q)
    (g : Generator) :
  2 <= seq_length -> 1 <= batch_size -> (0 <= mask_rate <= 1)%Q ->
  exists mask : Tensor2,
    (create_random_mask seq_length batch_size mask_rate g).1 = Ok mask
    /\ length mask = seq_length
    /\ Forall (binary_row batch_size) mask
    /\ mask !! 0 = Some (replicate batch_size 1%Q)
    /\ mask !! (seq_length - 1) = Some (replicate batch_size 1%Q).
Proof. intros Hseq _ _. apply create_random_mask_rows. lia. Qed.

Lemma create_random_mask_spec_witness :
  exists mask : Tensor2,
    (create_random_mask 3 2 1 (fun _ => 0.5%Q)).1 = Ok mask
    /\ length mask = 3
    /\ Forall (binary_row 2) mask
    /\ mask !! 0 = Some (replicate 2 1%Q)
    /\ mask !! (3 - 1) = Some (replicate 2 1%Q).
Proof.
  apply (create_random_mask_spec 3 2 1 (fun _ => 0.5%Q)); [lia | lia |].
  split; discriminate.
Defined.

(** With mask_rate = 1 every draw is masked, the endpoints excepted. *)
Example create_random_mask_rate_one :
  (create_random_mask 3 2 1 (fun _ => 0.5%Q)).1 = Ok [[1; 1]; [0; 0]; [1; 1]]%Q.
Proof. reflexivity. Qed.

(** An empty sequence has no row 0 to assign. *)
Example create_random_mask_empty :
  (create_random_mask 0 2 0.5 (fun _ => 0.5%Q)).1
  = Raise (IndexError "index out of bounds for dimension 0").
Proof. reflexivity. Qed.

(** ** The fraction of incorrect pixels *)

Lemma for_each_cons {A S} (body : S -> A -> result S) (x : A) (xs : list A) (s : S) :
  for_each body (x :: xs) s = body s x ≫= for_each body xs.
Proof. done. Qed.

Lemma map_result_Forall {A B} (f : A -> result B) (Q : A -> Prop) (P : B -> Prop) :
  (forall a b, Q a -> f a = Ok b -> P b) ->
  forall xs ys, Forall Q xs -> map_result f xs = Ok ys -> Forall P ys.
Proof.
  intros Hf xs. induction xs as [|x xs IH]; intros ys Hxs Hrun; simpl in Hrun.
  - injection Hrun as <-. constructor.
  - apply Forall_cons in Hxs as [Hx Hxs].
    destruct (f x) as [y|e] eqn:Hy; [|done]. cbn in Hrun.
    destruct (map_result f xs) as [ys'|e] eqn:Hys; [|done]. cbn in Hrun.
    injection Hrun as <-. constructor; eauto.
Qed.

(** Whatever is broadcast against it, a right operand whose elements
    satisfy [Q] yields results satisfying [P]. *)
Lemma broadcast_Forall {A B C} (f : A -> B -> result C) (Q : B -> Prop) (P : C -> Prop) :
  (forall a b c, Q b -> f a b = Ok c -> P c) ->
  forall xs ys zs, Forall Q ys -> broadcast f xs ys = Ok zs -> Forall P zs.
Proof.
  intros Hf xs ys zs Hys. unfold broadcast.
  destruct (decide (length xs = length ys)) as [Hlen|Hlen].
  - apply (map_result_Forall _ (fun p => Q p.2)); [intros [a b]; simpl; eauto|].
    clear Hlen. revert xs. induction Hys as [|y ys Hy Hys IH]; intros [|x xs]; simpl;
      constructor; auto.
  - assert (Hl : forall x, map_result (f x) ys = Ok zs -> Forall P zs)
      by (intros x; apply (map_result_Forall _ Q); [eauto | done]).
    assert (Hr : forall y l, Forall Q [y] ->
              map_result (fun x => f x y) l = Ok zs -> Forall P zs).
    { intros y l Hy%Forall_cons. destruct Hy as [Hy _].
      apply (map_result_Forall _ (fun _ => Q y)); [eauto|].
      apply Forall_forall. auto. }
    destruct xs as [|x [|x' xs]]; destruct ys as [|y [|y' ys]]; try done; eauto.
Qed.

Lemma broadcast5_Forall {A B C} (f : A -> B -> C) (Q : B -> Prop) (P : C -> Prop) :
  (forall a b, Q b -> P (f a b)) ->
  forall xs ys zs, Forall5 Q ys -> broadcast5 f xs ys = Ok zs -> Forall5 P zs.
Proof.
  intros Hf. unfold broadcast5, Forall5.
  do 5 (apply broadcast_Forall; try (intros a b c Hb Hc; revert a b c Hb Hc)).
  intros a b c Hb [= <-]. auto.
Qed.

Lemma sumQ_zeros (xs : list Q) : Forall (fun x => x = 0%Q) xs -> sumQ xs = 0%Q.
Proof.
  induction 1 as [|x xs -> _ IH]; simpl; [done|]. by rewrite IH.
Qed.

Lemma sum5_zeros (t : Tensor5) : Forall5 (fun x => x = 0%Q) t -> sum5 t = 0%Q.
Proof.
  intros Ht. unfold sum5. apply sumQ_zeros. by do 4 apply Forall_concat.
Qed.

Lemma one_minus_all_ones (mask : Tensor2) :
  all_ones mask -> Forall5 (fun x => x = 0%Q) (one_minus (expand_mask mask)).
Proof.
  intros Hmask. unfold one_minus, expand_mask, map5, Forall5.
  apply Forall_forall. intros r Hr.
  apply list_elem_of_In, in_map_iff in Hr as (r1 & <- & Hr1).
  apply in_map_iff in Hr1 as (row & <- & Hrow).
  apply list_elem_of_In in Hrow.
  pose proof (proj1 (Forall_forall _ _) Hmask row Hrow) as Hones.
  rewrite !map_map. apply Forall_forall. intros c Hc.
  apply list_elem_of_In, in_map_iff in Hc as (x & <- & Hx).
  apply list_elem_of_In in Hx.
  rewrite (proj1 (Forall_forall _ _) Hones x Hx).
  repeat constructor.
Qed.

(** *** Shapes: when broadcasting returns *)

Lemma shaped_map {A B} (f : A -> B) (n : nat) (P : A -> Prop) (Q : B -> Prop) (l : list A) :
  (forall x, P x -> Q (f x)) -> shaped n P l -> shaped n Q (map f l).
Proof.
  intros Hf [Hlen Hall]. split; [by rewrite length_map|].
  apply Forall_fmap. eapply Forall_impl; [done|]. done.
Qed.

Lemma has_shape5_map5 {A B} (f : A -> B) (T B' C H W : nat) t :
  has_shape5 T B' C H W t -> has_shape5 T B' C H W (map5 f t).
Proof.
  unfold has_shape5, map5. do 5 (apply shaped_map; intros ?). done.
Qed.

Lemma expand_mask_shape (T B : nat) (mask : Tensor2) :
  has_shape2 T B mask -> has_shape5 T B 1 16 16 (expand_mask mask).
Proof.
  unfold has_shape2, has_shape5, expand_mask.
  do 2 (apply shaped_map; intros ?). intros _.
  split; [done|]. constructor; [|done].
  split; [apply length_replicate|]. apply Forall_replicate.
  split; [apply length_replicate|]. by apply Forall_replicate.
Qed.

Lemma map_result_shaped {A B} (f : A -> result B) (P : A -> Prop) (R : B -> Prop)
    (n : nat) (xs : list A) :
  (forall x, P x -> exists z, f x = Ok z /\ R z) ->
  shaped n P xs -> exists zs, map_result f xs = Ok zs /\ shaped n R zs.
Proof.
  intros Hf [<- Hall]. induction Hall as [|x xs Hx _ (zs & Hzs & Hlen & HR)]; simpl.
  - exists []. split; [done|]. by split.
  - destruct (Hf x Hx) as (z & -> & Hz). cbn [mbind result_bind]. rewrite Hzs.
    cbn [mbind result_bind]. exists (z :: zs). split; [done|].
    split; [simpl; by rewrite Hlen | by constructor].
Qed.

(** Two operands of the same size along an axis. *)
Lemma broadcast_same {A B C} (f : A -> B -> result C)
    (P : A -> Prop) (Q : B -> Prop) (R : C -> Prop) (n : nat) (xs : list A) (ys : list B) :
  (forall x y, P x -> Q y -> exists z, f x y = Ok z /\ R z) ->
  shaped n P xs -> shaped n Q ys ->
  exists zs, broadcast f xs ys = Ok zs /\ shaped n R zs.
Proof.
  intros Hf [Hlx Hx] [Hly Hy]. unfold broadcast.
  destruct (decide (length xs = length ys)) as [Hlen|Hlen]; [|congruence].
  apply (map_result_shaped _ (fun p => P p.1 /\ Q p.2)).
  - intros [x y] [Hpx Hqy]. by apply Hf.
  - split; [rewrite length_zip; lia|].
    clear Hlx Hly Hlen. revert ys Hy.
    induction Hx as [|x xs Hpx _ IH]; intros ys Hy; [constructor|].
    destruct Hy as [|y ys Hqy Hy]; [constructor|]. simpl. constructor; auto.
Qed.

(** A right operand of size one along an axis is stretched. *)
Lemma broadcast_stretch {A B C} (f : A -> B -> result C)
    (P : A -> Prop) (Q : B -> Prop) (R : C -> Prop) (n : nat) (xs : list A) (ys : list B) :
  (forall x y, P x -> Q y -> exists z, f x y = Ok z /\ R z) ->
  shaped n P xs -> shaped 1 Q ys ->
  exists zs, broadcast f xs ys = Ok zs /\ shaped n R zs.
Proof.
  intros Hf Hxs Hys.
  destruct (decide (n = 1)) as [->|Hn]; [by eapply broadcast_same|].
  destruct Hys as [Hly Hy]. destruct ys as [|y [|y' ys]]; try done.
  apply Forall_cons in Hy as [Hqy _].
  assert (Hrun : broadcast f xs [y] = map_result (fun x => f x y) xs).
  { unfold broadcast. destruct Hxs as [Hlx _].
    destruct (decide (length xs = length [y])) as [Hlen|_]; [simpl in Hlen; lia|].
    by destruct xs as [|x [|x' xs]]. }
  rewrite Hrun. apply (map_result_shaped _ P); [|done].
  intros x Hpx. by apply Hf.
Qed.

Lemma broadcast5_same {A B C} (f : A -> B -> C) (T B' C' H W : nat) xs ys :
  has_shape5 T B' C' H W xs -> has_shape5 T B' C' H W ys ->
  exists zs, broadcast5 f xs ys = Ok zs /\ has_shape5 T B' C' H W zs.
Proof.
  unfold has_shape5, broadcast5.
  do 5 (apply broadcast_same; intros ? ?). intros _ _. eauto.
Qed.

(** The second operand has one channel, stretched over the channels of the
    first. *)
Lemma broadcast5_channels {A B C} (f : A -> B -> C) (T B' C' H W : nat) xs ys :
  has_shape5 T B' C' H W xs -> has_shape5 T B' 1 H W ys ->
  exists zs, broadcast5 f xs ys = Ok zs /\ has_shape5 T B' C' H W zs.
Proof.
  unfold has_shape5, broadcast5.
  do 2 (apply broadcast_same; intros ? ?).
  apply broadcast_stretch; intros ? ?.
  do 2 (apply broadcast_same; intros ? ?). intros _ _. eauto.
Qed.

Lemma calculate_fraction_all_ones (image reconstructed_image : Tensor5) (mask : Tensor2) :
  all_ones mask ->
  sum5 (one_minus (expand_mask mask)) = 0%Q
  /\ forall v, calculate_fraction_of_incorrect_pixels image reconstructed_image mask = Ok v
               -> v = NaN.
Proof.
  intros Hmask. pose proof (one_minus_all_ones mask Hmask) as Hzero.
  split; [by apply sum5_zeros|].
  intros v. unfold calculate_fraction_of_incorrect_pixels.
  destruct (broadcast5 _ image _) as [incorrect|e]; [|done]. cbn [mbind result_bind].
  destruct (broadcast5 _ incorrect _) as [masked|e] eqn:Hmasked; [|done].
  cbn [mbind result_bind]. intros [= <-].
  apply (broadcast5_Forall _ (fun x => x = 0%Q) (fun x => x = 0%Q)) in Hmasked;
    [|by intros [] ? ->|done].
  by rewrite !sum5_zeros.
Qed.

(** On well-shaped operands and a mask that hides nothing the division is
    0/0 and the call returns NaN. *)
Lemma calculate_fraction_returns_nan (T B C : nat)
    (image reconstructed_image : Tensor5) (mask : Tensor2) :
  has_shape5 T B C 16 16 image -> has_shape5 T B C 16 16 reconstructed_image ->
  has_shape2 T B mask -> all_ones mask ->
  calculate_fraction_of_incorrect_pixels image reconstructed_image mask = Ok NaN.
Proof.
  intros Himage Hrec Hshape Hones.
  destruct (calculate_fraction_of_incorrect_pixels image reconstructed_image mask)
    as [v|e] eqn:Hrun.
  - f_equal. by eapply calculate_fraction_all_ones.
  - exfalso. unfold calculate_fraction_of_incorrect_pixels in Hrun.
    destruct (broadcast5_same (fun x b => negb (Qeq_bool x (bool_to_float b)))
                T B C 16 16 image (gt_half reconstructed_image))
      as (incorrect & Hinc & Hincs); [done | by apply has_shape5_map5|].
    rewrite Hinc in Hrun. cbn [mbind result_bind] in Hrun.
    destruct (broadcast5_channels (fun b y => (bool_to_float b * y)%Q)
                T B C 16 16 incorrect (one_minus (expand_mask mask)))
      as (masked & Hmasked & _);
      [done | by apply has_shape5_map5, expand_mask_shape|].
    by rewrite Hmasked in Hrun.
Qed.

Lemma create_random_mask_rate_zero (seq_length batch_size : nat) (mask_rate : Q)
    (g : Generator) (mask : Tensor2) :
  nonneg_draws g -> (mask_rate <= 0)%Q ->
  (create_random_mask seq_length batch_size mask_rate g).1 = Ok mask ->
  all_ones mask.
Proof.
  intros Hg Hrate. unfold create_random_mask, torch_rand, row_fill. simpl.
  set (m := ge_to_dtype _ _).
  assert (Hm : all_ones m).
  { subst m. unfold ge_to_dtype. rewrite map_map.
    apply Forall_forall. intros row Hrow.
    apply list_elem_of_In, in_map_iff in Hrow as (t & <- & _).
    rewrite map_map. apply Forall_forall. intros x Hx.
    apply list_elem_of_In, in_map_iff in Hx as (b & <- & _).
    assert (Hle : Qle_bool mask_rate (g (t * batch_size + b)) = true)
      by (apply Qle_bool_iff; eapply Qle_trans; [done | apply Hg]).
    by rewrite Hle. }
  assert (Hfill : forall k (l : Tensor2), all_ones l -> all_ones (alter (map (fun _ => 1%Q)) k l)).
  { intros k l Hl. apply Forall_alter; [done|]. intros row _ _.
    apply Forall_forall. intros x Hx.
    by apply list_elem_of_In, in_map_iff in Hx as (_ & <- & _). }
  destruct (py_index (length m) 0) as [k0|]; [|done]. cbn [mbind result_bind].
  destruct (py_index _ (-1)) as [k1|]; [|done].
  intros [= <-]. by do 2 apply Hfill.
Qed.

Lemma all_ones_shape (T B : nat) (mask : Tensor2) :
  has_shape2 T B mask -> all_ones mask -> mask = ones2 T B.
Proof.
  intros [<- Hrows] Hones. unfold ones2.
  induction mask as [|row mask IH]; [done|].
  apply Forall_cons in Hrows as [[<- _] Hrows]. apply Forall_cons in Hones as [Hrow Hones].
  simpl. f_equal; [|by apply IH].
  clear -Hrow. induction Hrow as [|x row -> _ IH]; [done|]. simpl. by f_equal.
Qed.

Lemma create_random_mask_all_ones (seq_length batch_size : nat) (mask_rate : Q)
    (g : Generator) :
  1 <= seq_length -> nonneg_draws g -> (mask_rate <= 0)%Q ->
  create_random_mask seq_length batch_size mask_rate g
  = (Ok (ones2 seq_length batch_size), fun k => g (seq_length * batch_size + k)).
Proof.
  intros Hseq Hg Hrate.
  destruct (create_random_mask_rows seq_length batch_size mask_rate g Hseq)
    as (mask & Hmask & Hlen & Hrows & _).
  pose proof (create_random_mask_rate_zero _ _ _ _ _ Hg Hrate Hmask) as Hones.
  rewrite (surjective_pairing (create_random_mask _ _ _ _)), Hmask. f_equal.
  f_equal. apply all_ones_shape; [|done]. split; [done|].
  apply (Forall_impl _ _ _ Hrows). intros row [Hrow _]. split; [done|].
  apply Forall_forall. done.
Qed.

Lemma has_shape5_dims {A} (T B C H W : nat) (t : list (list (list (list (list A))))) :
  1 <= T -> has_shape5 T B C H W t -> dim0 t = T /\ dim1 t = B.
Proof.
  intros HT [Hlen Hrows]. split; [done|].
  destruct t as [|a t]; [simpl in Hlen; lia|].
  apply Forall_cons in Hrows as [[Ha _] _]. done.
Qed.

Section RandomMaskingFacts.
Context {Info Loader : Type}.
Variable next_batch : Loader -> Tensor5 * Loader.
Variable kvae_elbo : Tensor5 -> Tensor2 -> Generator -> result Info * Generator.
Variable decoder_mean : Info -> string -> result Tensor5.

Local Abbreviation step :=
  (random_masking_step Info Loader next_batch kvae_elbo decoder_mean).

(** One iteration appends one entry to each column. *)
Lemma random_masking_step_appends dl g fs ss p dl' g' fs' ss' :
  step (dl, g, fs, ss) p = Ok (dl', g', fs', ss') ->
  exists f s, fs' = fs ++ [f] /\ ss' = ss ++ [s].
Proof.
  unfold random_masking_step.
  destruct (next_batch dl) as [batch dl1].
  destruct (create_random_mask _ _ _ _) as [[mask|e] g1]; [|done]. cbn [mbind result_bind].
  destruct (kvae_elbo _ _ _) as [[info|e] g2]; [|done]. cbn [mbind result_bind].
  destruct (decoder_mean info "filter_as") as [fi|e]; [|done]. cbn [mbind result_bind].
  destruct (calculate_fraction_of_incorrect_pixels _ fi _) as [f|e]; [|done].
  cbn [mbind result_bind].
  destruct (decoder_mean info "as_resampled") as [si|e]; [|done]. cbn [mbind result_bind].
  destruct (calculate_fraction_of_incorrect_pixels _ si _) as [s|e]; [|done].
  cbn [mbind result_bind]. intros [= <- <- <- <-]. eauto.
Qed.

Lemma random_masking_loop_extends ps dl g fs ss dl' g' fs' ss' :
  for_each step ps (dl, g, fs, ss) = Ok (dl', g', fs', ss') ->
  exists fext sext, fs' = fs ++ fext /\ ss' = ss ++ sext.
Proof.
  revert dl g fs ss. induction ps as [|p ps IH]; intros dl g fs ss; cbn [for_each].
  - intros [= <- <- <- <-]. exists [], []. by rewrite !app_nil_r.
  - destruct (step (dl, g, fs, ss) p) as [[[[dl1 g1] fs1] ss1]|e] eqn:Hstep; [|done].
    cbn [mbind result_bind]. intros Hrest.
    apply random_masking_step_appends in Hstep as (f & s & -> & ->).
    apply IH in Hrest as (fext & sext & -> & ->).
    exists (f :: fext), (s :: sext). by rewrite <- !app_assoc.
Qed.

(** The first iteration, at dropout probability 0.0, records two NaNs. *)
Lemma random_masking_first_step dl g p dl' g' fs' ss' :
  nonneg_draws g -> (p <= 0)%Q ->
  step (dl, g, [], []) p = Ok (dl', g', fs', ss') ->
  fs' = [NaN] /\ ss' = [NaN].
Proof.
  intros Hg Hp. unfold random_masking_step.
  destruct (next_batch dl) as [batch dl1].
  destruct (create_random_mask _ _ _ _) as [[mask|e] g1] eqn:Hmask; [|done].
  cbn [mbind result_bind].
  assert (Hones : all_ones mask).
  { eapply create_random_mask_rate_zero; [done | done | by rewrite Hmask]. }
  destruct (kvae_elbo _ _ _) as [[info|e] g2]; [|done]. cbn [mbind result_bind].
  destruct (decoder_mean info "filter_as") as [fi|e]; [|done]. cbn [mbind result_bind].
  destruct (calculate_fraction_of_incorrect_pixels _ fi _) as [f|e] eqn:Hf; [|done].
  cbn [mbind result_bind].
  destruct (decoder_mean info "as_resampled") as [si|e]; [|done]. cbn [mbind result_bind].
  destruct (calculate_fraction_of_incorrect_pixels _ si _) as [s|e] eqn:Hs; [|done].
  cbn [mbind result_bind]. intros [= <- <- <- <-].
  apply (calculate_fraction_all_ones _ _ _ Hones) in Hf as ->.
  by apply (calculate_fraction_all_ones _ _ _ Hones) in Hs as ->.
Qed.

Lemma evaluate_random_masking_first_nan dl g df :
  nonneg_draws g ->
  evaluate_random_masking Info Loader next_batch kvae_elbo decoder_mean dl g = Ok df ->
  head (filtering_incorrect_pixels df) = Some NaN
  /\ head (smoothing_incorrect_pixels df) = Some NaN.
Proof.
  intros Hg. unfold evaluate_random_masking.
  destruct (for_each step _ _) as [[[[dl2 g2] fs2] ss2]|e] eqn:Hloop; [|done].
  cbn [mbind result_bind]. intros [= <-]. cbn [filtering_incorrect_pixels smoothing_incorrect_pixels].
  unfold dropout_probabilities in Hloop. rewrite for_each_cons in Hloop.
  destruct (step (dl, g, [], []) 0.0%Q) as [[[[dl1 g1] fs1] ss1]|e] eqn:Hstep; [|done].
  cbn [mbind result_bind] in Hloop.
  apply random_masking_first_step in Hstep as [-> ->]; [|done|done].
  by apply random_masking_loop_extends in Hloop as (fext & sext & -> & ->).
Qed.
(** The first iteration returns, and records two NaNs, when the model and
    the decoder return images of the batch's shape. *)
Lemma random_masking_first_step_returns (T B C : nat) (dl dl' : Loader) (g g' : Generator)
    (p : Q) (batch filtered smoothed : Tensor5) (info : Info) :
  1 <= T -> nonneg_draws g -> (p <= 0)%Q ->
  next_batch dl = (batch, dl') -> has_shape5 T B C 16 16 batch ->
  kvae_elbo (binarize batch) (ones2 T B) (fun k => g (T * B + k)) = (Ok info, g') ->
  decoder_mean info "filter_as" = Ok filtered -> has_shape5 T B C 16 16 filtered ->
  decoder_mean info "as_resampled" = Ok smoothed -> has_shape5 T B C 16 16 smoothed ->
  step (dl, g, [], []) p = Ok (dl', g', [NaN], [NaN]).
Proof.
  intros HT Hg Hp Hnext Hbatch Helbo Hfilt Hfs Hsmooth Hss.
  assert (Hbin : has_shape5 T B C 16 16 (binarize batch)) by by apply has_shape5_map5.
  destruct (has_shape5_dims _ _ _ _ _ _ HT Hbin) as [Hd0 Hd1].
  assert (Hones : has_shape2 T B (ones2 T B) /\ all_ones (ones2 T B)).
  { unfold has_shape2, ones2, all_ones. split; [split|].
    - apply length_replicate.
    - apply Forall_replicate. split; [apply length_replicate|].
      by apply Forall_replicate.
    - by apply Forall_replicate, Forall_replicate. }
  destruct Hones as [Hshape Hones].
  unfold random_masking_step. rewrite Hnext.
  fold (binarize batch). rewrite Hd0, Hd1.
  rewrite create_random_mask_all_ones by done.
  cbn [mbind result_bind]. rewrite Helbo. cbn [mbind result_bind].
  rewrite Hfilt. cbn [mbind result_bind].
  rewrite (calculate_fraction_returns_nan T B C) by done.
  cbn [mbind result_bind]. rewrite Hsmooth. cbn [mbind result_bind].
  rewrite (calculate_fraction_returns_nan T B C) by done.
  done.
Qed.
End RandomMaskingFacts.

(** C8: [calculate_fraction_of_incorrect_pixels] divides by the sum of
    [1.0 - observation_mask] with no guard. For images of shape
    (T, B, C, 16, 16) and an all-ones mask of shape (T, B) that sum is zero
    and the call returns NaN: it returns, and raises nothing. This input is
    reached by [evaluate_random_masking]: the sweep starts at dropout
    probability 0.0, where [create_random_mask] returns the all-ones mask,
    so that, when the model and the decoder return images of the batch's
    shape, the first iteration returns with NaN recorded in both columns,
    and whenever the whole sweep returns both columns start with NaN. *)
Theorem fraction_denominator_zero_reachable
    {Info Loader : Type}
    (next_batch : Loader -> Tensor5 * Loader)
    (kvae_elbo : Tensor5 -> Tensor2 -> Generator -> result Info * Generator)
    (decoder_mean : Info -> string -> result Tensor5)
    (T B C : nat) (image reconstructed_image : Tensor5) (mask : Tensor2)
    (dataloader dataloader' : Loader) (g g' : Generator)
    (batch filtered_images smoothed_images : Tensor5) (info : Info) :
  has_shape5 T B C 16 16 image -> has_shape5 T B C 16 16 reconstructed_image ->
  has_shape2 T B mask -> all_ones mask ->
  1 <= T -> nonneg_draws g ->
  next_batch dataloader = (batch, dataloader') -> has_shape5 T B C 16 16 batch ->
  kvae_elbo (binarize batch) (ones2 T B) (fun k => g (T * B + k)) = (Ok info, g') ->
  decoder_mean info "filter_as" = Ok filtered_images ->
  has_shape5 T B C 16 16 filtered_images ->
  decoder_mean info "as_resampled" = Ok smoothed_images ->
  has_shape5 T B C 16 16 smoothed_images ->
  let step := random_masking_step Info Loader next_batch kvae_elbo decoder_mean in
  (sum5 (one_minus (expand_mask mask)) = 0%Q
   /\ calculate_fraction_of_incorrect_pixels image reconstructed_image mask = Ok NaN)
  /\ (exists p rest, dropout_probabilities = p :: rest /\ (p == 0)%Q
       /\ create_random_mask T B p g = (Ok (ones2 T B), fun k => g (T * B + k))
       /\ all_ones (ones2 T B)
       /\ step (dataloader, g, [], []) p = Ok (dataloader', g', [NaN], [NaN])
       /\ for_each step dropout_probabilities (dataloader, g, [], [])
          = for_each step rest (dataloader', g', [NaN], [NaN]))
  /\ (forall df,
        evaluate_random_masking Info Loader next_batch kvae_elbo decoder_mean dataloader g
          = Ok df ->
        head (filtering_incorrect_pixels df) = Some NaN
        /\ head (smoothing_incorrect_pixels df) = Some NaN).
Proof.
  intros Himage Hrec Hshape Hones HT Hg Hnext Hbatch Helbo Hfilt Hfs Hsmooth Hss step.
  subst step.
  assert (Hstep : random_masking_step Info Loader next_batch kvae_elbo decoder_mean
                    (dataloader, g, [], []) 0.0%Q = Ok (dataloader', g', [NaN], [NaN]))
    by by eapply (random_masking_first_step_returns _ _ _ T B C).
  split; [|split].
  - split; [by apply calculate_fraction_all_ones|].
    by apply (calculate_fraction_returns_nan T B C).
  - eexists 0.0%Q, _. split; [reflexivity|]. split; [done|].
    split; [by apply create_random_mask_all_ones|].
    split; [by apply Forall_replicate, Forall_replicate|].
    split; [done|]. unfold dropout_probabilities. by rewrite for_each_cons, Hstep.
  - intros df. by apply evaluate_random_masking_first_nan.
Qed.

Lemma fraction_denominator_zero_reachable_witness :
  let step := random_masking_step unit unit sample_loader sample_elbo sample_decoder in
  (sum5 (one_minus (expand_mask [[1]; [1]; [1]]%Q)) = 0%Q
   /\ calculate_fraction_of_incorrect_pixels sample_batch (replicate 3 (sample_frame 0.25))
        [[1]; [1]; [1]]%Q = Ok NaN)
  /\ (exists p rest, dropout_probabilities = p :: rest /\ (p == 0)%Q
       /\ create_random_mask 3 1 p sample_generator
          = (Ok (ones2 3 1), fun k => sample_generator (3 * 1 + k))
       /\ all_ones (ones2 3 1)
       /\ step (tt, sample_generator, [], []) p
          = Ok (tt, fun k => sample_generator (3 * 1 + k), [NaN], [NaN])
       /\ for_each step dropout_probabilities (tt, sample_generator, [], [])
          = for_each step rest (tt, fun k => sample_generator (3 * 1 + k), [NaN], [NaN]))
  /\ (forall df,
        evaluate_random_masking unit unit sample_loader sample_elbo sample_decoder tt
          sample_generator = Ok df ->
        head (filtering_incorrect_pixels df) = Some NaN
        /\ head (smoothing_incorrect_pixels df) = Some NaN).
Proof.
  apply (fraction_denominator_zero_reachable sample_loader sample_elbo sample_decoder
           3 1 1 sample_batch (replicate 3 (sample_frame 0.25)) [[1]; [1]; [1]]%Q
           tt tt sample_generator (fun k => sample_generator (3 * 1 + k))
           sample_batch (replicate 3 (sample_frame 0.25)) (replicate 3 (sample_frame 0.25))
           tt).
  - repeat (split || constructor).
  - repeat (split || constructor).
  - repeat (split || constructor).
  - repeat constructor.
  - lia.
  - intros k. discriminate.
  - reflexivity.
  - repeat (split || constructor).
  - reflexivity.
  - reflexivity.
  - repeat (split || constructor).
  - reflexivity.
  - repeat (split || constructor).
Defined.

(** The sample run returns, and its columns start with NaN: the masks drawn
    at rates up to 0.5 hide nothing, the later ones hide the middle frame,
    whose 256 pixels the constant reconstruction gets right. *)
Example evaluate_random_masking_sample :
  evaluate_random_masking unit unit sample_loader sample_elbo sample_decoder tt
    sample_generator
  = Ok {| batch_id := replicate 11 0%Z;
          df_dropout_probabilities := dropout_probabilities;
          filtering_incorrect_pixels :=
            replicate 6 NaN ++ replicate 5 (Finite (0 / 256));
          smoothing_incorrect_pixels :=
            replicate 6 NaN ++ replicate 5 (Finite (0 / 256)) |}.
Proof. vm_compute. reflexivity. Qed.

(** ** The Kalman variational autoencoder *)

Import KalmanVAE.

Section ModelFacts.
Context `{Torch}.

(** *** Running the effects *)

Lemma run_ret {A B} (a : A) (k : A -> M B) (w : World) : (mret a ≫= k) w = k a w.
Proof. done. Qed.

Lemma run_ret_last {A} (a : A) (w : World) : (mret a : M A) w = (Ok a, w).
Proof. done. Qed.

Lemma returned_inv {A B} (a a' : A) (b b' : B) (w w' : World) :
  (Ok (a, b), w) = (Ok (a', b'), w') -> a' = a /\ b' = b /\ w' = w.
Proof. by intros [= -> -> ->]. Qed.

Lemma raised_inv {A} (e e' : exn) (w w' : World) :
  (Raise e, w) = (@Raise A e', w') -> e' = e /\ w' = w.
Proof. by intros [= -> ->]. Qed.

Lemma run_raise {A B} (e : exn) (k : A -> M B) (w : World) :
  (raise e ≫= k) w = (Raise e, w).
Proof. done. Qed.

Lemma run_assoc {A B C} (m : M A) (f : A -> M B) (k : B -> M C) (w : World) :
  ((m ≫= f) ≫= k) w = (m ≫= (fun a => f a ≫= k)) w.
Proof.
  unfold mbind, M_bind. by destruct (m w) as [[a|e] w1].
Qed.

Lemma run_call {A B C} (f : Collaborator A B) (ev : A -> result B -> Event) (a : A)
    (k : B -> M C) (w : World) :
  (call f ev a ≫= k) w
  = match f a (rng w) with
    | (Ok b, g) => k b {| rng := g; trace := trace w ++ [ev a (Ok b)] |}
    | (Raise e, g) => (Raise e, {| rng := g; trace := trace w ++ [ev a (Raise e)] |})
    end.
Proof.
  unfold mbind, M_bind, call. by destruct (f a (rng w)) as [[b|e] g].
Qed.

Lemma run_draw {C} (sampler : Distribution -> RngState -> Tensor * RngState)
    (d : Distribution) (k : Tensor -> M C) (w : World) :
  (draw sampler d ≫= k) w
  = k (sampler d (rng w)).1
      {| rng := (sampler d (rng w)).2; trace := trace w ++ [Draw d (sampler d (rng w)).1] |}.
Proof.
  unfold mbind, M_bind, draw. by destruct (sampler d (rng w)) as [t g].
Qed.

Lemma run_draw_last (sampler : Distribution -> RngState -> Tensor * RngState)
    (d : Distribution) (w : World) :
  draw sampler d w
  = (Ok (sampler d (rng w)).1,
     {| rng := (sampler d (rng w)).2; trace := trace w ++ [Draw d (sampler d (rng w)).1] |}).
Proof. unfold draw. by destruct (sampler d (rng w)) as [t g]. Qed.

Lemma run_shape_at {C} (t : Tensor) (i : nat) (k : Z -> M C) (w : World) :
  (shape_at t i ≫= k) w
  = match shape t !! i with
    | Some n => k n w
    | None => (Raise (IndexError "tuple index out of range"), w)
    end.
Proof. unfold shape_at. by destruct (shape t !! i). Qed.

(** One step of a run: expose the next effect, and branch on what the
    collaborator it calls returns. *)
Ltac run_step :=
  first
    [ rewrite run_assoc
    | rewrite run_ret
    | rewrite run_raise
    | rewrite run_shape_at;
      let n := fresh "n" in
      match goal with |- context [shape ?t !! ?i] => destruct (shape t !! i) as [n|] eqn:? end
    | rewrite run_call; cbn [rng trace];
      let b := fresh "b" in let e := fresh "e" in let g := fresh "g" in
      match goal with
      | |- context [match ?f ?a ?s with _ => _ end] =>
          destruct (f a s) as [[b|e] g] eqn:?
      end
    | rewrite run_draw
    | rewrite run_draw_last
    | rewrite run_ret_last ];
  cbn [rng trace].

(** Runs a method to its end, branching on the sample control, on the
    training flag and on what each collaborator returns. *)
Ltac run_all :=
  repeat first
    [ run_step
    | progress case_decide
    | match goal with
      | |- context [if training ?s then _ else _] => destruct (training s) eqn:?
      end ].

(** Closes the branches of a run that raised, when the run is known to
    have returned. *)
Ltac returned := let Hrun := fresh in intros Hrun; discriminate Hrun.

Lemma weights_not_in_elbo_info : "weights" ∉ (list_to_set elbo_info_keys : gset string).
Proof.
  intros Hin%elem_of_list_to_set. unfold elbo_info_keys in Hin.
  repeat (apply elem_of_cons in Hin as [Hin|Hin]; [discriminate|]).
  by apply elem_of_nil in Hin.
Qed.


(** *** What a run of [elbo] that returns has done *)

Lemma elbo_returns (self : KalmanVariationalAutoencoder)
    (xs : Tensor) (sample_control : SampleControl) (observation_mask : option Tensor)
    (reconst_weight regularization_weight kalman_weight kl_weight : Q)
    (learn_weight_model symmetrize_covariance : bool) (burn_in : Z)
    (w w' : World) (objective : Tensor) (info : gmap string pyval) :
  elbo self xs sample_control observation_mask reconst_weight regularization_weight
       kalman_weight kl_weight learn_weight_model symmetrize_covariance burn_in w
    = (Ok (objective, info), w') ->
  exists (seq_length batch_size : Z) (as_distrib xs_distrib : Distribution)
         (as_ zs_sample transition : Tensor) (fo : FilterOut) (so : SmoothOut)
         (g : RngState) (pre : list Event),
    shape xs !! 0 = Some seq_length /\ shape xs !! 1 = Some batch_size
    /\ encoded_by rsample self xs sample_control seq_length batch_size as_distrib as_ g pre
    /\ (encoder sample_control = "mean" -> training self = false)
    /\ trace w' = trace w ++ pre ++
         [CallDecoder (view as_ [(-1)%Z; a_dim self]);
          CallKalmanFilter
            (filter_args as_ sample_control observation_mask learn_weight_model
                         symmetrize_covariance (Some burn_in)) (Ok fo);
          CallKalmanSmooth
            (smooth_args as_ fo sample_control symmetrize_covariance (Some burn_in)) (Ok so);
          Draw (smoothed_distribution self seq_length batch_size so) zs_sample;
          CallTransitionLL (zs_sample, mat_As fo) (Ok transition)]
    /\ objective =
         weighted_objective reconst_weight regularization_weight kalman_weight kl_weight
           (reconstruction_objective xs seq_length batch_size xs_distrib)
           (regularization_objective self seq_length batch_size as_distrib as_)
           (kl_term self kl_weight as_distrib)
           (observation_log_likelihood self seq_length batch_size (mat_Cs fo) zs_sample as_)
           transition
           (posterior_log_likelihood self seq_length batch_size so zs_sample)
    /\ info =
         elbo_info reconst_weight regularization_weight kalman_weight kl_weight
           observation_mask
           (reconstruction_objective xs seq_length batch_size xs_distrib)
           (regularization_objective self seq_length batch_size as_distrib as_)
           (kl_term self kl_weight as_distrib)
           (observation_log_likelihood self seq_length batch_size (mat_Cs fo) zs_sample as_)
           transition
           (posterior_log_likelihood self seq_length batch_size so zs_sample)
           fo so as_.
Proof.
  unfold elbo. run_all; try returned.
  all: intros (-> & -> & ->)%returned_inv; cbn [trace].
  all: match goal with
       | Henc : self_encoder _ _ _ = (Ok ?d, ?g), Hdec : self_decoder _ _ _ = (Ok ?xd, _),
         Hf : kalman_filter _ _ _ = (Ok ?fo, _), Hs : kalman_smooth _ _ _ = (Ok ?so, _),
         Ht : state_transition_log_likelihood _ _ _ = (Ok ?tr, _),
         H0 : shape _ !! 0 = Some ?n, H1 : shape _ !! 1 = Some ?n0 |- _ =>
           eexists n, n0, d, xd, _, _, tr, fo, so, g, _
       end.
  all: split; [reflexivity|]; split; [reflexivity|].
  - split; [left; split_and!; [done | reflexivity | reflexivity]|].
    split; [congruence|]. split; [by rewrite <- !app_assoc|]. split; reflexivity.
  - split; [right; split_and!; [done | reflexivity | reflexivity]|].
    split; [done|]. split; [by rewrite <- !app_assoc|]. split; reflexivity.
Qed.


(** *** What a run of [predict_future] that returns has done *)

Lemma predict_future_returns (self : KalmanVariationalAutoencoder)
    (xs : Tensor) (num_steps : Z) (sample_control : SampleControl)
    (symmetrize_covariance : bool)
    (w w' : World) (frames : Tensor) (info : gmap string pyval) :
  predict_future self xs num_steps sample_control symmetrize_covariance w
    = (Ok (frames, info), w') ->
  exists (seq_length batch_size : Z) (as_distrib xs_distrib : Distribution)
         (as_ : Tensor) (fo : FilterOut) (so : SmoothOut) (po : PredictOut)
         (g g' : RngState) (pre post : list Event),
    shape xs !! 0 = Some seq_length /\ shape xs !! 1 = Some batch_size
    /\ encoded_by sample self xs sample_control seq_length batch_size as_distrib as_ g pre
    /\ decoded_by sample_control seq_length batch_size num_steps xs_distrib frames g' post
    /\ trace w' = trace w ++ pre ++
         [CallKalmanFilter
            (filter_args as_ sample_control None false symmetrize_covariance None) (Ok fo);
          CallKalmanSmooth
            (smooth_args as_ fo sample_control symmetrize_covariance None) (Ok so);
          CallPredictFuture (predict_args as_ fo so num_steps sample_control) (Ok po);
          CallDecoder (view (po_as po) [(-1)%Z; a_dim self])] ++ post
    /\ info = predict_info fo so po.
Proof.
  unfold predict_future. run_all; try returned.
  all: intros (-> & -> & ->)%returned_inv; cbn [trace].
  all: match goal with
       | Henc : self_encoder _ _ _ = (Ok ?d, ?g), Hdec : self_decoder _ _ _ = (Ok ?xd, ?g'),
         Hf : kalman_filter _ _ _ = (Ok ?fo, _), Hs : kalman_smooth _ _ _ = (Ok ?so, _),
         Hp : ssm_predict_future _ _ _ = (Ok ?po, _),
         H0 : shape _ !! 0 = Some ?n, H1 : shape _ !! 1 = Some ?n0 |- _ =>
           eexists n, n0, d, xd, _, fo, so, po, g, g', _, _
       end.
  all: split; [reflexivity|]; split; [reflexivity|].
  all: split;
    [first [left; split_and!; [done | reflexivity | reflexivity]
           | right; split_and!; [done | reflexivity | reflexivity]]|].
  all: split;
    [first [left; split_and!; [done | reflexivity | reflexivity]
           | right; split_and!; [done | reflexivity | reflexivity]]|].
  all: split; [by rewrite <- ?app_assoc | reflexivity].
Qed.


(** *** What the info dictionary of [elbo] holds *)

Lemma elbo_info_lookup
    (reconst_weight regularization_weight kalman_weight kl_weight : Q)
    (observation_mask : option Tensor)
    (reconstruction regularization kl observation transition posterior : Tensor)
    (fo : FilterOut) (so : SmoothOut) (as_ : Tensor) :
  let info := elbo_info reconst_weight regularization_weight kalman_weight kl_weight
                observation_mask reconstruction regularization kl observation
                transition posterior fo so as_ in
  info !! "reconstruction" = Some (numpy reconstruction)
  /\ info !! "regularization" = Some (numpy regularization)
  /\ info !! "kl" = Some (numpy kl)
  /\ info !! "kalman_observation_log_likelihood" = Some (numpy observation)
  /\ info !! "kalman_state_transition_log_likelihood" = Some (numpy transition)
  /\ info !! "kalman_posterior_log_likelihood" = Some (numpy posterior)
  /\ info !! "mat_As" = Some (PyTensor (mat_As fo))
  /\ info !! "mat_Cs" = Some (PyTensor (mat_Cs fo))
  /\ info !! "as" = Some (PyTensor as_)
  /\ info !! "zs" = Some (PyTensor (zs so))
  /\ info !! "as_resampled" = Some (PyTensor (as_resampled so)).
Proof. cbv zeta. unfold elbo_info. split_and!; reflexivity. Qed.

(** The last thing a run of [elbo] that returns has done is the call of
    [state_transition_log_likelihood], and the value it returned is the
    one the run recorded. *)
Lemma elbo_transition_call (self : KalmanVariationalAutoencoder)
    (xs : Tensor) (sample_control : SampleControl) (observation_mask : option Tensor)
    (reconst_weight regularization_weight kalman_weight kl_weight : Q)
    (learn_weight_model symmetrize_covariance : bool) (burn_in : Z)
    (w w' : World) (objective : Tensor) (info : gmap string pyval) :
  elbo self xs sample_control observation_mask reconst_weight regularization_weight
       kalman_weight kl_weight learn_weight_model symmetrize_covariance burn_in w
    = (Ok (objective, info), w') ->
  exists (args : Tensor * Tensor) (transition : Tensor) (g g' : RngState),
    last (trace w') = Some (CallTransitionLL args (Ok transition))
    /\ state_transition_log_likelihood (state_space_model self) args g = (Ok transition, g').
Proof.
  unfold elbo. run_all; try returned.
  all: intros (-> & -> & ->)%returned_inv; cbn [trace].
  all: eexists _, _, _, _; split; [apply last_snoc | eassumption].
Qed.

(** C2: whenever [elbo] returns, the objective is
    reconst_weight * reconstruction + regularization_weight * regularization
    + kl_weight * kl + kalman_weight * (observation + transition - posterior),
    on the very terms reported in the info dictionary, and each of the three
    likelihood terms is summed over the time axis and averaged over the
    batch axis: the observation and posterior terms are per-step
    log-probabilities viewed as (seq_length, batch_size, -1), reduced by
    [.sum(0).mean(0).sum()] in [elbo]; the transition term is what
    [state_transition_log_likelihood] returned for the trajectory of the
    other two terms and the filter's [mat_As], which, for the function of
    the specification, is the per-step transition log-densities summed over
    axis 0 and averaged over the next axis. *)
Theorem elbo_objective_is_weighted_sum (drop_first : Tensor -> Tensor) (mat_Q : Tensor)
    (self : KalmanVariationalAutoencoder)
    (xs : Tensor) (sample_control : SampleControl) (observation_mask : option Tensor)
    (reconst_weight regularization_weight kalman_weight kl_weight : Q)
    (learn_weight_model symmetrize_covariance : bool) (burn_in : Z)
    (w w' : World) (objective : Tensor) (info : gmap string pyval) :
  (forall (args : Tensor * Tensor) (g : RngState),
     state_transition_log_likelihood (state_space_model self) args g
     = spec_state_transition_log_likelihood drop_first mat_Q args g) ->
  elbo self xs sample_control observation_mask reconst_weight regularization_weight
       kalman_weight kl_weight learn_weight_model symmetrize_covariance burn_in w
    = (Ok (objective, info), w') ->
  exists reconstruction regularization kl observation transition posterior : Tensor,
    info !! "reconstruction" = Some (numpy reconstruction)
    /\ info !! "regularization" = Some (numpy regularization)
    /\ info !! "kl" = Some (numpy kl)
    /\ info !! "kalman_observation_log_likelihood" = Some (numpy observation)
    /\ info !! "kalman_state_transition_log_likelihood" = Some (numpy transition)
    /\ info !! "kalman_posterior_log_likelihood" = Some (numpy posterior)
    /\ objective =
         add (add (add (scale reconst_weight reconstruction)
                       (scale regularization_weight regularization))
                  (scale kl_weight kl))
             (scale kalman_weight (sub (add observation transition) posterior))
    /\ (exists (seq_length batch_size : Z) (observation_distrib posterior_distrib : Distribution)
               (as_ z mat_As : Tensor),
          shape xs !! 0 = Some seq_length /\ shape xs !! 1 = Some batch_size
          /\ observation =
               sum_all (mean_dim (sum_dim
                 (view (log_prob observation_distrib (view as_ [(-1)%Z; a_dim self]))
                       [seq_length; batch_size; (-1)%Z]) 0) 0)
          /\ posterior =
               sum_all (mean_dim (sum_dim
                 (view (log_prob posterior_distrib (view z [(-1)%Z; z_dim self]))
                       [seq_length; batch_size; (-1)%Z]) 0) 0)
          /\ transition =
               mean_dim (sum_dim
                 (log_prob
                    (MultivariateNormal (matmul (drop_last mat_As) (drop_last z)) mat_Q)
                    (drop_first z)) 0) 0
          /\ info !! "mat_As" = Some (PyTensor mat_As)
          /\ CallTransitionLL (z, mat_As) (Ok transition) ∈ trace w').
Proof.
  intros Hspec Hrun.
  pose proof (elbo_transition_call _ _ _ _ _ _ _ _ _ _ _ _ _ _ _ Hrun)
    as (args & tr' & gt & gt' & Hlast & Hcall).
  apply elbo_returns in Hrun
    as (seq & batch & ad & xd & as_ & z & tr & fo & so & g & pre
        & Hseq & Hbatch & _ & _ & Htrace & -> & ->).
  assert (Htr : tr = mean_dim (sum_dim (transition_log_densities drop_first mat_Q
                                          z (mat_As fo)) 0) 0).
  { rewrite Htrace, !last_app in Hlast. cbn [last] in Hlast.
    injection Hlast as <- <-. rewrite Hspec in Hcall.
    unfold spec_state_transition_log_likelihood in Hcall. cbn [fst snd] in Hcall.
    by injection Hcall as <- _. }
  pose proof (elbo_info_lookup reconst_weight regularization_weight kalman_weight kl_weight
                observation_mask
                (reconstruction_objective xs seq batch xd)
                (regularization_objective self seq batch ad as_)
                (kl_term self kl_weight ad)
                (observation_log_likelihood self seq batch (mat_Cs fo) z as_)
                tr (posterior_log_likelihood self seq batch so z) fo so as_)
    as (Hrec & Hreg & Hkl & Hobs & Htrl & Hpost & HAs & _).
  eexists _, _, _, _, _, _. split_and!; try eassumption; [reflexivity|].
  eexists seq, batch, _, _, as_, z, (mat_As fo). split_and!; try done.
  rewrite Htrace, !elem_of_app. right. right.
  rewrite !elem_of_cons. auto 10.
Qed.


(** C1, as the code has it: whenever [elbo] returns, the observation, the
    state-transition and the posterior log-likelihoods are all evaluated on
    one trajectory, with the matrices the filter returned. That trajectory
    is drawn by [elbo] itself, by one [rsample] from the smoothed
    distribution N(means, covariances), right after the smoother returns;
    the trajectory [zs] of the smoother's backward sampling pass is only
    stored in the info dictionary. *)
Theorem elbo_kalman_terms_on_one_draw (self : KalmanVariationalAutoencoder)
    (xs : Tensor) (sample_control : SampleControl) (observation_mask : option Tensor)
    (reconst_weight regularization_weight kalman_weight kl_weight : Q)
    (learn_weight_model symmetrize_covariance : bool) (burn_in : Z)
    (w w' : World) (objective : Tensor) (info : gmap string pyval) :
  elbo self xs sample_control observation_mask reconst_weight regularization_weight
       kalman_weight kl_weight learn_weight_model symmetrize_covariance burn_in w
    = (Ok (objective, info), w') ->
  exists (seq_length batch_size : Z) (fa : FilterArgs) (fo : FilterOut)
         (sa : SmoothArgs) (so : SmoothOut) (z : Tensor) (before after : list Event),
    shape xs !! 0 = Some seq_length /\ shape xs !! 1 = Some batch_size
    /\ trace w' = trace w ++ before ++
         [CallKalmanFilter fa (Ok fo);
          CallKalmanSmooth sa (Ok so);
          Draw (smoothed_distribution self seq_length batch_size so) z] ++ after
    /\ kalman_terms_on self xs info (trace w') fo so z
    /\ info !! "zs" = Some (PyTensor (zs so)).
Proof.
  intros Hrun.
  apply elbo_returns in Hrun
    as (seq & batch & ad & xd & as_ & z & tr & fo & so & g & pre
        & Hseq & Hbatch & _ & _ & Htrace & -> & ->).
  pose proof (elbo_info_lookup reconst_weight regularization_weight kalman_weight kl_weight
                observation_mask
                (reconstruction_objective xs seq batch xd)
                (regularization_objective self seq batch ad as_)
                (kl_term self kl_weight ad)
                (observation_log_likelihood self seq batch (mat_Cs fo) z as_)
                tr (posterior_log_likelihood self seq batch so z) fo so as_)
    as (_ & _ & _ & Hobs & Htr & Hpost & _ & _ & Has & Hzs & _).
  eexists seq, batch, _, fo, _, so, z,
    (pre ++ [CallDecoder (view as_ [(-1)%Z; a_dim self])]),
    [CallTransitionLL (z, mat_As fo) (Ok tr)].
  split; [done|]. split; [done|].
  split; [by rewrite Htrace, <- !app_assoc|]. split; [|done].
  exists seq, batch, as_, tr. split_and!; try done.
  rewrite Htrace, !elem_of_app. right. right. rewrite !elem_of_cons. auto 10.
Qed.

(** C3: in a run of [elbo] that returns, and in a run of [predict_future]
    that returns, the filter is called once, and the matrices [mat_As] and
    [mat_Cs] it returned are the ones handed to the smoother, to the
    transition likelihood and to the future predictor; these are the only
    calls into the state-space model's recursions. *)
Theorem filter_matrices_are_threaded (self self' : KalmanVariationalAutoencoder)
    (xs xs' : Tensor) (sample_control sample_control' : SampleControl)
    (observation_mask : option Tensor)
    (reconst_weight regularization_weight kalman_weight kl_weight : Q)
    (learn_weight_model symmetrize_covariance symmetrize_covariance' : bool)
    (burn_in num_steps : Z)
    (w1 w1' w2 w2' : World) (objective frames : Tensor) (info info' : gmap string pyval) :
  elbo self xs sample_control observation_mask reconst_weight regularization_weight
       kalman_weight kl_weight learn_weight_model symmetrize_covariance burn_in w1
    = (Ok (objective, info), w1') ->
  predict_future self' xs' num_steps sample_control' symmetrize_covariance' w2
    = (Ok (frames, info'), w2') ->
  (exists (evs : list Event) (fa : FilterArgs) (fo : FilterOut)
          (sa : SmoothArgs) (so : SmoothOut),
     trace w1' = trace w1 ++ evs
     /\ recursions evs = [CallKalmanFilter fa (Ok fo); CallKalmanSmooth sa (Ok so)]
     /\ sa_mat_As sa = mat_As fo /\ sa_mat_Cs sa = mat_Cs fo
     /\ (forall args out, CallTransitionLL args out ∈ evs -> args.2 = mat_As fo)
     /\ info !! "mat_As" = Some (PyTensor (mat_As fo))
     /\ info !! "mat_Cs" = Some (PyTensor (mat_Cs fo)))
  /\ (exists (evs : list Event) (fa : FilterArgs) (fo : FilterOut)
             (sa : SmoothArgs) (so : SmoothOut) (pa : PredictArgs) (po : PredictOut),
        trace w2' = trace w2 ++ evs
        /\ recursions evs = [CallKalmanFilter fa (Ok fo); CallKalmanSmooth sa (Ok so);
                             CallPredictFuture pa (Ok po)]
        /\ sa_mat_As sa = mat_As fo /\ sa_mat_Cs sa = mat_Cs fo
        /\ pa_mat_As pa = mat_As fo /\ pa_mat_Cs pa = mat_Cs fo).
Proof.
  intros Helbo Hpredict. split.
  - apply elbo_returns in Helbo
      as (seq & batch & ad & xd & as_ & z & tr & fo & so & g & pre
          & _ & _ & Henc & _ & Htrace & -> & ->).
    eexists _, _, fo, _, so. split; [exact Htrace|].
    split; [by destruct Henc as [(_ & _ & ->)|(_ & _ & ->)]|].
    split; [reflexivity|]. split; [reflexivity|]. split.
    + intros args out Hin. rewrite elem_of_app, !elem_of_cons in Hin.
      destruct Hin as [Hin|[Hin|[Hin|[Hin|[Hin|[Hin|Hin]]]]]]; try discriminate.
      * destruct Henc as [(_ & _ & ->)|(_ & _ & ->)];
          repeat (apply elem_of_cons in Hin as [Hin|Hin]; [discriminate|]);
          by apply elem_of_nil in Hin.
      * by injection Hin as -> _.
      * by apply elem_of_nil in Hin.
    + split; apply elbo_info_lookup.
  - apply predict_future_returns in Hpredict
      as (seq & batch & ad & xd & as_ & fo & so & po & g & g' & pre & post
          & _ & _ & Henc & Hdec & Htrace & _).
    eexists _, _, fo, _, so, _, po. split; [exact Htrace|].
    split.
    { by destruct Henc as [(_ & _ & ->)|(_ & _ & ->)];
        destruct Hdec as [(_ & _ & ->)|(_ & _ & ->)]. }
    by split_and!.
Qed.


(** *** Sample control *)

Lemma recursions_after_encoder (tr : list Event) (x : Tensor) :
  recursions (tr ++ [CallEncoder x]) = recursions tr.
Proof. unfold recursions. rewrite List.filter_app. simpl. apply app_nil_r. Qed.

(** In training, [elbo] rejects mean mode right after the encoder ran. *)
Lemma elbo_mean_in_training (self : KalmanVariationalAutoencoder)
    (xs : Tensor) (sample_control : SampleControl) (observation_mask : option Tensor)
    (reconst_weight regularization_weight kalman_weight kl_weight : Q)
    (learn_weight_model symmetrize_covariance : bool) (burn_in : Z)
    (w : World) (seq_length batch_size : Z) (d : Distribution) (g : RngState) :
  training self = true -> encoder sample_control = "mean" ->
  shape xs !! 0 = Some seq_length -> shape xs !! 1 = Some batch_size ->
  self_encoder self (encoder_input xs) (rng w) = (Ok d, g) ->
  elbo self xs sample_control observation_mask reconst_weight regularization_weight
       kalman_weight kl_weight learn_weight_model symmetrize_covariance burn_in w
  = (Raise (invalid_encoder sample_control),
     {| rng := g; trace := trace w ++ [CallEncoder (encoder_input xs)] |}).
Proof.
  intros Htrain Hmode Hseq Hbatch Henc. unfold elbo.
  rewrite run_shape_at, Hseq, run_shape_at, Hbatch, run_call.
  fold (encoder_input xs). rewrite Henc.
  destruct (decide (encoder sample_control = "sample")) as [Hs|_]; [congruence|].
  destruct (decide (encoder sample_control = "mean")) as [_|Hm]; [|done].
  by rewrite Htrain, run_raise.
Qed.

(** C4, at the failing input: with the model in training state and mean
    mode requested for the encoder, [predict_future] raises nothing at the
    mode check and calls the filter on the encoder's mean, whereas [elbo]
    raises the invalid-sample-control error before any recursion. *)
Theorem predict_future_accepts_mean_in_training (self : KalmanVariationalAutoencoder)
    (xs : Tensor) (num_steps : Z) (sample_control : SampleControl)
    (observation_mask : option Tensor)
    (reconst_weight regularization_weight kalman_weight kl_weight : Q)
    (learn_weight_model symmetrize_covariance : bool) (burn_in : Z)
    (w : World) (seq_length batch_size : Z) (d : Distribution) (g : RngState) :
  training self = true -> encoder sample_control = "mean" ->
  shape xs !! 0 = Some seq_length -> shape xs !! 1 = Some batch_size ->
  self_encoder self (encoder_input xs) (rng w) = (Ok d, g) ->
  (exists out : result FilterOut,
     CallKalmanFilter
       (filter_args (view (dist_mean d) [seq_length; batch_size; a_dim self])
                    sample_control None false symmetrize_covariance None) out
     ∈ trace (predict_future self xs num_steps sample_control symmetrize_covariance w).2)
  /\ fails_before_recursion
       (elbo self xs sample_control observation_mask reconst_weight regularization_weight
             kalman_weight kl_weight learn_weight_model symmetrize_covariance burn_in) w.
Proof.
  intros Htrain Hmode Hseq Hbatch Henc. split.
  - unfold predict_future.
    rewrite run_shape_at, Hseq, run_shape_at, Hbatch, run_call.
    fold (encoder_input xs). rewrite Henc. cbn [rng trace].
    destruct (decide (encoder sample_control = "sample")) as [Hs|_]; [congruence|].
    destruct (decide (encoder sample_control = "mean")) as [_|Hm]; [|done].
    rewrite run_ret. run_all.
    all: eexists; cbn [snd trace]; rewrite ?elem_of_app, ?list_elem_of_singleton;
      unfold filter_args; eauto 10.
  - eexists _, _. split; [by eapply elbo_mean_in_training|].
    apply recursions_after_encoder.
Qed.


(** Whatever the collaborators do, with an unknown sample-control mode
    [predict_future] raises and never returns; when the unknown mode is the
    encoder's, [elbo] and [predict_future] both raise before the filter, the
    smoother or the predictor is called. *)
Lemma invalid_mode_never_returns (self : KalmanVariationalAutoencoder)
    (xs : Tensor) (num_steps : Z) (sample_control : SampleControl)
    (observation_mask : option Tensor)
    (reconst_weight regularization_weight kalman_weight kl_weight : Q)
    (learn_weight_model symmetrize_covariance : bool) (burn_in : Z) (w : World) :
  invalid_configuration sample_control ->
  (exists (e : exn) (w' : World),
     predict_future self xs num_steps sample_control symmetrize_covariance w = (Raise e, w'))
  /\ (~ valid_mode (encoder sample_control) ->
      fails_before_recursion
        (elbo self xs sample_control observation_mask reconst_weight regularization_weight
              kalman_weight kl_weight learn_weight_model symmetrize_covariance burn_in) w
      /\ fails_before_recursion
           (predict_future self xs num_steps sample_control symmetrize_covariance) w).
Proof.
  intros Hinvalid. split; [|intros Hencoder; split].
  - unfold predict_future. run_all.
    all: try (eexists _, _; reflexivity).
    all: exfalso; destruct Hinvalid as [Hbad|Hbad]; apply Hbad; unfold valid_mode; auto.
  - unfold fails_before_recursion, elbo.
    do 3 (run_step; [|eexists _, _; split;
                       [reflexivity | cbn [trace]; by rewrite ?recursions_after_encoder]]).
    repeat case_decide; try (exfalso; apply Hencoder; unfold valid_mode; by auto).
    rewrite run_raise. eexists _, _. split; [reflexivity|].
    cbn [trace]. apply recursions_after_encoder.
  - unfold fails_before_recursion, predict_future.
    do 3 (run_step; [|eexists _, _; split;
                       [reflexivity | cbn [trace]; by rewrite ?recursions_after_encoder]]).
    repeat case_decide; try (exfalso; apply Hencoder; unfold valid_mode; by auto).
    all: rewrite run_raise; eexists _, _; split; [reflexivity|].
    all: cbn [trace]; apply recursions_after_encoder.
Qed.

Lemma recursions_app (tr tr' : list Event) :
  recursions (tr ++ tr') = recursions tr ++ recursions tr'.
Proof. apply List.filter_app. Qed.

(** An unknown encoder mode is rejected right after the encoder ran, by
    both methods. *)
Lemma unknown_encoder_mode_rejected (self : KalmanVariationalAutoencoder)
    (xs : Tensor) (num_steps : Z) (sample_control : SampleControl)
    (observation_mask : option Tensor)
    (reconst_weight regularization_weight kalman_weight kl_weight : Q)
    (learn_weight_model symmetrize_covariance : bool) (burn_in : Z)
    (w : World) (seq_length batch_size : Z) (d : Distribution) (g : RngState) :
  ~ valid_mode (encoder sample_control) ->
  shape xs !! 0 = Some seq_length -> shape xs !! 1 = Some batch_size ->
  self_encoder self (encoder_input xs) (rng w) = (Ok d, g) ->
  elbo self xs sample_control observation_mask reconst_weight regularization_weight
       kalman_weight kl_weight learn_weight_model symmetrize_covariance burn_in w
  = (Raise (invalid_encoder sample_control),
     {| rng := g; trace := trace w ++ [CallEncoder (encoder_input xs)] |})
  /\ predict_future self xs num_steps sample_control symmetrize_covariance w
     = (Raise (invalid_encoder sample_control),
        {| rng := g; trace := trace w ++ [CallEncoder (encoder_input xs)] |}).
Proof.
  intros Hmode Hseq Hbatch Henc. unfold valid_mode in Hmode. split.
  - unfold elbo. rewrite run_shape_at, Hseq, run_shape_at, Hbatch, run_call.
    fold (encoder_input xs). rewrite Henc.
    destruct (decide (encoder sample_control = "sample")) as [Hs|_]; [tauto|].
    destruct (decide (encoder sample_control = "mean")) as [Hm|_]; [tauto|].
    by rewrite run_raise.
  - unfold predict_future. rewrite run_shape_at, Hseq, run_shape_at, Hbatch, run_call.
    fold (encoder_input xs). rewrite Henc.
    destruct (decide (encoder sample_control = "sample")) as [Hs|_]; [tauto|].
    destruct (decide (encoder sample_control = "mean")) as [Hm|_]; [tauto|].
    by rewrite run_raise.
Qed.

(** An unknown decoder mode is rejected by [predict_future] once the
    filter, the smoother, the predictor and the decoder have returned. *)
Lemma unknown_decoder_mode_rejected (self : KalmanVariationalAutoencoder)
    (xs : Tensor) (num_steps : Z) (sample_control : SampleControl)
    (symmetrize_covariance : bool) (w : World) (seq_length batch_size : Z)
    (as_distrib xs_distrib : Distribution) (as_ : Tensor) (pre : list Event)
    (fo : FilterOut) (so : SmoothOut) (po : PredictOut) (g g2 g3 g4 g5 : RngState) :
  ~ valid_mode (decoder sample_control) ->
  shape xs !! 0 = Some seq_length -> shape xs !! 1 = Some batch_size ->
  self_encoder self (encoder_input xs) (rng w) = (Ok as_distrib, g) ->
  encoded_by sample self xs sample_control seq_length batch_size as_distrib as_ g pre ->
  kalman_filter (state_space_model self)
    (filter_args as_ sample_control None false symmetrize_covariance None)
    (rng_after_encoding sample sample_control as_distrib g) = (Ok fo, g2) ->
  kalman_smooth (state_space_model self)
    (smooth_args as_ fo sample_control symmetrize_covariance None) g2 = (Ok so, g3) ->
  ssm_predict_future (state_space_model self)
    (predict_args as_ fo so num_steps sample_control) g3 = (Ok po, g4) ->
  self_decoder self (view (po_as po) [(-1)%Z; a_dim self]) g4 = (Ok xs_distrib, g5) ->
  predict_future self xs num_steps sample_control symmetrize_covariance w
  = (Raise (invalid_decoder sample_control),
     {| rng := g5;
        trace := trace w ++ pre ++
          [CallKalmanFilter
             (filter_args as_ sample_control None false symmetrize_covariance None) (Ok fo);
           CallKalmanSmooth
             (smooth_args as_ fo sample_control symmetrize_covariance None) (Ok so);
           CallPredictFuture (predict_args as_ fo so num_steps sample_control) (Ok po);
           CallDecoder (view (po_as po) [(-1)%Z; a_dim self])] |}).
Proof.
  intros Hmode Hseq Hbatch Henc Hencoded Hfilter Hsmooth Hpredict Hdecoder.
  unfold valid_mode in Hmode.
  unfold filter_args, smooth_args, predict_args, rng_after_encoding in *.
  unfold predict_future. rewrite run_shape_at, Hseq, run_shape_at, Hbatch, run_call.
  fold (encoder_input xs). rewrite Henc. cbn [rng trace].
  destruct Hencoded as [(Hs & -> & ->)|(Hm & -> & ->)].
  - rewrite decide_True in Hfilter by done.
    destruct (decide (encoder sample_control = "sample")) as [_|Hn]; [|done].
    rewrite run_assoc, run_draw, run_ret. cbn [rng trace].
    rewrite run_call. cbn [rng trace]. rewrite Hfilter.
    rewrite run_call. cbn [rng trace]. rewrite Hsmooth.
    rewrite run_call. cbn [rng trace]. rewrite Hpredict.
    rewrite run_call. cbn [rng trace]. rewrite Hdecoder.
    destruct (decide (decoder sample_control = "sample")) as [Hd|_]; [tauto|].
    destruct (decide (decoder sample_control = "mean")) as [Hd|_]; [tauto|].
    rewrite run_raise. by rewrite <- !app_assoc.
  - assert (Hns : encoder sample_control <> "sample") by (rewrite Hm; discriminate).
    rewrite decide_False in Hfilter by done.
    destruct (decide (encoder sample_control = "sample")) as [Hs|_]; [done|].
    destruct (decide (encoder sample_control = "mean")) as [_|Hn]; [|done].
    rewrite run_ret.
    rewrite run_call. cbn [rng trace]. rewrite Hfilter.
    rewrite run_call. cbn [rng trace]. rewrite Hsmooth.
    rewrite run_call. cbn [rng trace]. rewrite Hpredict.
    rewrite run_call. cbn [rng trace]. rewrite Hdecoder.
    destruct (decide (decoder sample_control = "sample")) as [Hd|_]; [tauto|].
    destruct (decide (decoder sample_control = "mean")) as [Hd|_]; [tauto|].
    rewrite run_raise. by rewrite <- !app_assoc.
Qed.

Lemma recursions_encoded_by (sampler : Distribution -> RngState -> Tensor * RngState)
    (self : KalmanVariationalAutoencoder) (xs : Tensor) (sample_control : SampleControl)
    (seq_length batch_size : Z) (d : Distribution) (as_ : Tensor) (g : RngState)
    (pre : list Event) :
  encoded_by sampler self xs sample_control seq_length batch_size d as_ g pre ->
  recursions pre = [].
Proof. by intros [(_ & _ & ->)|(_ & _ & ->)]. Qed.

(** C5, as the code has it: each mode is checked where it is used. When
    [xs] has its two leading dimensions and the encoder returns, an unknown
    encoder mode makes [elbo] and [predict_future] raise
    ValueError("Invalid sample control for encoder: <mode>") right after the
    encoder call, before any filter, smoother or predictor recursion. An
    unknown decoder mode, with a known encoder mode, makes [predict_future]
    raise ValueError("Invalid sample control for decoder: <mode>") only
    after the filter, the smoother and the predictor have been called and
    have returned, and the decoder has been called. *)
Theorem invalid_mode_raises (self : KalmanVariationalAutoencoder)
    (xs : Tensor) (num_steps : Z) (sample_control sample_control' : SampleControl)
    (observation_mask : option Tensor)
    (reconst_weight regularization_weight kalman_weight kl_weight : Q)
    (learn_weight_model symmetrize_covariance : bool) (burn_in : Z) (w : World)
    (seq_length batch_size : Z) (as_distrib xs_distrib : Distribution) (as_ : Tensor)
    (pre : list Event) (fo : FilterOut) (so : SmoothOut) (po : PredictOut)
    (g g2 g3 g4 g5 : RngState) :
  ~ valid_mode (encoder sample_control) ->
  ~ valid_mode (decoder sample_control') ->
  shape xs !! 0 = Some seq_length -> shape xs !! 1 = Some batch_size ->
  self_encoder self (encoder_input xs) (rng w) = (Ok as_distrib, g) ->
  encoded_by sample self xs sample_control' seq_length batch_size as_distrib as_ g pre ->
  kalman_filter (state_space_model self)
    (filter_args as_ sample_control' None false symmetrize_covariance None)
    (rng_after_encoding sample sample_control' as_distrib g) = (Ok fo, g2) ->
  kalman_smooth (state_space_model self)
    (smooth_args as_ fo sample_control' symmetrize_covariance None) g2 = (Ok so, g3) ->
  ssm_predict_future (state_space_model self)
    (predict_args as_ fo so num_steps sample_control') g3 = (Ok po, g4) ->
  self_decoder self (view (po_as po) [(-1)%Z; a_dim self]) g4 = (Ok xs_distrib, g5) ->
  let rejected := {| rng := g; trace := trace w ++ [CallEncoder (encoder_input xs)] |} in
  let ran :=
    [CallKalmanFilter
       (filter_args as_ sample_control' None false symmetrize_covariance None) (Ok fo);
     CallKalmanSmooth
       (smooth_args as_ fo sample_control' symmetrize_covariance None) (Ok so);
     CallPredictFuture (predict_args as_ fo so num_steps sample_control') (Ok po)] in
  (elbo self xs sample_control observation_mask reconst_weight regularization_weight
        kalman_weight kl_weight learn_weight_model symmetrize_covariance burn_in w
   = (Raise (ValueError ("Invalid sample control for encoder: " +:+ encoder sample_control)),
      rejected)
   /\ predict_future self xs num_steps sample_control symmetrize_covariance w
      = (Raise (ValueError
                  ("Invalid sample control for encoder: " +:+ encoder sample_control)),
         rejected)
   /\ recursions (trace rejected) = recursions (trace w))
  /\ (exists w' : World,
        predict_future self xs num_steps sample_control' symmetrize_covariance w
        = (Raise (ValueError
                    ("Invalid sample control for decoder: " +:+ decoder sample_control')),
           w')
        /\ trace w' = trace w ++ pre ++ ran
                        ++ [CallDecoder (view (po_as po) [(-1)%Z; a_dim self])]
        /\ recursions (trace w') = recursions (trace w) ++ ran).
Proof.
  intros Hencoder Hdecoder Hseq Hbatch Henc Hencoded Hfilter Hsmooth Hpredict Hdec
    rejected ran.
  split.
  - destruct (unknown_encoder_mode_rejected self xs num_steps sample_control
                observation_mask reconst_weight regularization_weight kalman_weight
                kl_weight learn_weight_model symmetrize_covariance burn_in w
                seq_length batch_size as_distrib g Hencoder Hseq Hbatch Henc)
      as [Helbo Hpred].
    split; [exact Helbo|]. split; [exact Hpred|].
    subst rejected. cbn [trace]. apply recursions_after_encoder.
  - eexists. split.
    + by eapply unknown_decoder_mode_rejected.
    + cbn [trace]. split; [reflexivity|].
      rewrite !recursions_app, (recursions_encoded_by _ _ _ _ _ _ _ _ _ _ Hencoded).
      reflexivity.
Qed.

(** *** Randomness *)

Lemma reproducible_ret {A} (a : A) : reproducible_from_generator (mret a : M A).
Proof. by intros w1 w2 Hrng. Qed.

Lemma reproducible_raise {A} (e : exn) : reproducible_from_generator (raise e : M A).
Proof. by intros w1 w2 Hrng. Qed.

Lemma reproducible_bind {A B} (m : M A) (k : A -> M B) :
  reproducible_from_generator m ->
  (forall a, reproducible_from_generator (k a)) ->
  reproducible_from_generator (m ≫= k).
Proof.
  intros Hm Hk w1 w2 Hrng. unfold mbind, M_bind.
  destruct (Hm w1 w2 Hrng) as [Hres Hgen].
  destruct (m w1) as [[a1|e1] w1'], (m w2) as [[a2|e2] w2']; simpl in *; try done.
  - injection Hres as ->. by apply Hk.
  - by injection Hres as ->.
Qed.

Lemma reproducible_call {A B} (f : Collaborator A B) (ev : A -> result B -> Event) (a : A) :
  reproducible_from_generator (call f ev a).
Proof.
  intros w1 w2 Hrng. unfold call. rewrite Hrng.
  by destruct (f a (rng w2)) as [r g].
Qed.

Lemma reproducible_draw (sampler : Distribution -> RngState -> Tensor * RngState)
    (d : Distribution) :
  reproducible_from_generator (draw sampler d).
Proof.
  intros w1 w2 Hrng. unfold draw. rewrite Hrng.
  by destruct (sampler d (rng w2)) as [t g].
Qed.

Lemma reproducible_shape_at (t : Tensor) (i : nat) :
  reproducible_from_generator (shape_at t i).
Proof. intros w1 w2 Hrng. unfold shape_at. by destruct (shape t !! i). Qed.

Ltac reproducible :=
  repeat first
    [ apply reproducible_bind
    | apply reproducible_call
    | apply reproducible_draw
    | apply reproducible_shape_at
    | apply reproducible_ret
    | apply reproducible_raise
    | progress intros
    | progress case_decide
    | match goal with
      | |- context [if training ?s then _ else _] => destruct (training s)
      end ].

(** C6, as the code has it: [elbo] and [predict_future] take no random
    source; every draw reads torch's default generator. Two runs on the
    same arguments that start from the same state of that generator return
    the same result and leave the generator in the same state. *)
Theorem runs_reproducible_from_generator_state (self : KalmanVariationalAutoencoder)
    (xs : Tensor) (num_steps : Z) (sample_control : SampleControl)
    (observation_mask : option Tensor)
    (reconst_weight regularization_weight kalman_weight kl_weight : Q)
    (learn_weight_model symmetrize_covariance : bool) (burn_in : Z) (w1 w2 : World) :
  rng w1 = rng w2 ->
  let run_elbo :=
    elbo self xs sample_control observation_mask reconst_weight regularization_weight
         kalman_weight kl_weight learn_weight_model symmetrize_covariance burn_in in
  let run_predict :=
    predict_future self xs num_steps sample_control symmetrize_covariance in
  ((run_elbo w1).1 = (run_elbo w2).1 /\ rng (run_elbo w1).2 = rng (run_elbo w2).2)
  /\ ((run_predict w1).1 = (run_predict w2).1
      /\ rng (run_predict w1).2 = rng (run_predict w2).2).
Proof.
  intros Hrng run_elbo run_predict. split.
  - assert (Hrep : reproducible_from_generator run_elbo)
      by (subst run_elbo; unfold elbo; reproducible).
    by apply Hrep.
  - assert (Hrep : reproducible_from_generator run_predict)
      by (subst run_predict; unfold predict_future; reproducible).
    by apply Hrep.
Qed.

(** C7: the dictionary returned by [elbo] holds the filter, predicted and
    smoothed means and covariances, the matrices, the sampled and resampled
    trajectories and the three log-likelihoods, but no entry "weights":
    reading [info["weights"]], as [write_trajectory_video] does, raises
    [KeyError]. *)
Theorem elbo_info_has_no_weights (self : KalmanVariationalAutoencoder)
    (xs : Tensor) (sample_control : SampleControl) (observation_mask : option Tensor)
    (reconst_weight regularization_weight kalman_weight kl_weight : Q)
    (learn_weight_model symmetrize_covariance : bool) (burn_in : Z)
    (w w' : World) (objective : Tensor) (info : gmap string pyval) :
  elbo self xs sample_control observation_mask reconst_weight regularization_weight
       kalman_weight kl_weight learn_weight_model symmetrize_covariance burn_in w
    = (Ok (objective, info), w') ->
  dom info = list_to_set elbo_info_keys
  /\ info !! "weights" = None
  /\ dict_getitem info "weights" = Raise (KeyError "weights").
Proof.
  assert (Hkeys : forall info : gmap string pyval,
            dom info = list_to_set elbo_info_keys ->
            dom info = list_to_set elbo_info_keys
            /\ info !! "weights" = None
            /\ dict_getitem info "weights" = Raise (KeyError "weights")).
  { intros d Hd. assert (Hnone : d !! "weights" = None).
    { apply not_elem_of_dom. rewrite Hd. apply weights_not_in_elbo_info. }
    unfold dict_getitem. by rewrite Hnone. }
  unfold elbo. run_all; try returned.
  all: intros (-> & -> & ->)%returned_inv; apply Hkeys; rewrite dom_list_to_map_L;
    reflexivity.
Qed.

End ModelFacts.

(** ** The symbolic instance: concrete runs *)

Import Symbolic.
#[local] Existing Instance sym_torch.

Lemma sym_elbo_returns :
  elbo (sym_model false) sym_xs sample_mode None 0.3 1.0 1.0 0.0 true true 0 (sym_world 0)
  = (Ok (sym_objective, sym_info), sym_final).
Proof. reflexivity. Qed.

Lemma sym_predict_returns :
  predict_future (sym_model true) sym_xs 3 mean_mode true (sym_world 0)
  = (Ok (sym_frames, sym_predict_info), sym_predict_final).
Proof. reflexivity. Qed.

(** Finds which event of a concrete trace a membership speaks of. *)
Ltac find_event Hin :=
  repeat (apply elem_of_cons in Hin as [Hin|Hin]; [try discriminate Hin|]);
  try (by apply elem_of_nil in Hin).

(** C1, as stated, fails: in the run above the three terms are evaluated
    on [sym_zs_sample], the draw that [elbo] makes from the smoothed
    distribution with noise 2, and not on the backward sample [zs] that
    the smoother drew with noise 1. *)
Lemma elbo_kalman_terms_not_on_backward_sample :
  ~ kalman_terms_on_backward_sample (sym_model false) sym_xs
      (elbo (sym_model false) sym_xs sample_mode None 0.3 1.0 1.0 0.0 true true 0)
      (sym_world 0).
Proof.
  intros Hclaim.
  destruct (Hclaim _ _ _ sym_elbo_returns)
    as (fa & fo & sa & so & _ & Hsmooth & seq & batch & as_ & tr & _ & _ & _ & Hll & _).
  cbn [trace sym_final] in Hsmooth, Hll. unfold sym_trace in Hsmooth, Hll.
  find_event Hsmooth. injection Hsmooth as -> ->.
  (* the only transition-likelihood call is on [sym_zs_sample], whose head
     operation is "rsample", not "backward_sample" *)
  find_event Hll.
Qed.

Lemma elbo_kalman_terms_on_one_draw_witness :
  exists (seq_length batch_size : Z) (fa : FilterArgs) (fo : FilterOut)
         (sa : SmoothArgs) (so : SmoothOut) (z : Tensor) (before after : list Event),
    shape sym_xs !! 0 = Some seq_length /\ shape sym_xs !! 1 = Some batch_size
    /\ trace sym_final = trace (sym_world 0) ++ before ++
         [CallKalmanFilter fa (Ok fo);
          CallKalmanSmooth sa (Ok so);
          Draw (smoothed_distribution (sym_model false) seq_length batch_size so) z] ++ after
    /\ kalman_terms_on (sym_model false) sym_xs sym_info (trace sym_final) fo so z
    /\ sym_info !! "zs" = Some (PyTensor (zs so)).
Proof.
  apply (elbo_kalman_terms_on_one_draw (sym_model false) sym_xs sample_mode None
           0.3 1.0 1.0 0.0 true true 0 (sym_world 0) sym_final sym_objective sym_info).
  reflexivity.
Defined.

(** The run of [elbo] on the model with the specification's transition
    likelihood. *)
Lemma sym_spec_elbo_returns :
  elbo sym_spec_model sym_xs sample_mode None 0.3 1.0 1.0 0.0 true true 0 (sym_world 0)
  = (Ok (sym_spec_objective, sym_spec_info), sym_spec_final).
Proof. reflexivity. Qed.

Lemma elbo_objective_is_weighted_sum_witness :
  exists reconstruction regularization kl observation transition posterior : Tensor,
    sym_spec_info !! "reconstruction" = Some (numpy reconstruction)
    /\ sym_spec_info !! "regularization" = Some (numpy regularization)
    /\ sym_spec_info !! "kl" = Some (numpy kl)
    /\ sym_spec_info !! "kalman_observation_log_likelihood" = Some (numpy observation)
    /\ sym_spec_info !! "kalman_state_transition_log_likelihood" = Some (numpy transition)
    /\ sym_spec_info !! "kalman_posterior_log_likelihood" = Some (numpy posterior)
    /\ sym_spec_objective =
         add (add (add (scale 0.3 reconstruction) (scale 1.0 regularization))
                  (scale 0.0 kl))
             (scale 1.0 (sub (add observation transition) posterior))
    /\ (exists (seq_length batch_size : Z) (observation_distrib posterior_distrib : Distribution)
               (as_ z mat_As : term),
          shape sym_xs !! 0 = Some seq_length /\ shape sym_xs !! 1 = Some batch_size
          /\ observation =
               sum_all (mean_dim (sum_dim
                 (view (log_prob observation_distrib
                                 (view as_ [(-1)%Z; a_dim sym_spec_model]))
                       [seq_length; batch_size; (-1)%Z]) 0) 0)
          /\ posterior =
               sum_all (mean_dim (sum_dim
                 (view (log_prob posterior_distrib
                                 (view z [(-1)%Z; z_dim sym_spec_model]))
                       [seq_length; batch_size; (-1)%Z]) 0) 0)
          /\ transition =
               mean_dim (sum_dim
                 (log_prob
                    (MultivariateNormal (matmul (drop_last mat_As) (drop_last z)) sym_mat_Q)
                    (sym_drop_first z)) 0) 0
          /\ sym_spec_info !! "mat_As" = Some (PyTensor mat_As)
          /\ CallTransitionLL (z, mat_As) (Ok transition) ∈ trace sym_spec_final).
Proof.
  apply (@elbo_objective_is_weighted_sum sym_torch sym_drop_first sym_mat_Q
           sym_spec_model sym_xs sample_mode None 0.3 1.0 1.0 0.0 true true 0
           (sym_world 0) sym_spec_final sym_spec_objective sym_spec_info).
  - intros args g. reflexivity.
  - reflexivity.
Defined.

Lemma filter_matrices_are_threaded_witness :
  (exists (evs : list Event) (fa : FilterArgs) (fo : FilterOut)
          (sa : SmoothArgs) (so : SmoothOut),
     trace sym_final = trace (sym_world 0) ++ evs
     /\ recursions evs = [CallKalmanFilter fa (Ok fo); CallKalmanSmooth sa (Ok so)]
     /\ sa_mat_As sa = mat_As fo /\ sa_mat_Cs sa = mat_Cs fo
     /\ (forall args out, CallTransitionLL args out ∈ evs -> args.2 = mat_As fo)
     /\ sym_info !! "mat_As" = Some (PyTensor (mat_As fo))
     /\ sym_info !! "mat_Cs" = Some (PyTensor (mat_Cs fo)))
  /\ (exists (evs : list Event) (fa : FilterArgs) (fo : FilterOut)
             (sa : SmoothArgs) (so : SmoothOut) (pa : PredictArgs) (po : PredictOut),
        trace sym_predict_final = trace (sym_world 0) ++ evs
        /\ recursions evs = [CallKalmanFilter fa (Ok fo); CallKalmanSmooth sa (Ok so);
                             CallPredictFuture pa (Ok po)]
        /\ sa_mat_As sa = mat_As fo /\ sa_mat_Cs sa = mat_Cs fo
        /\ pa_mat_As pa = mat_As fo /\ pa_mat_Cs pa = mat_Cs fo).
Proof.
  apply (filter_matrices_are_threaded (sym_model false) (sym_model true) sym_xs sym_xs
           sample_mode mean_mode None 0.3 1.0 1.0 0.0 true true true 0 3
           (sym_world 0) sym_final (sym_world 0) sym_predict_final
           sym_objective sym_frames sym_info sym_predict_info).
  - reflexivity.
  - reflexivity.
Defined.

(** The same request, mean mode in training state, sent to [elbo]. *)
Example elbo_rejects_mean_in_training :
  elbo (sym_model true) sym_xs mean_mode None 0.3 1.0 1.0 0.0 true true 0 (sym_world 0)
  = (Raise (ValueError "Invalid sample control for encoder: mean"),
     {| rng := 0; trace := [CallEncoder (encoder_input sym_xs)] |}).
Proof. vm_compute. reflexivity. Qed.

Lemma predict_future_accepts_mean_in_training_witness :
  (exists out : result FilterOut,
     CallKalmanFilter
       (filter_args (view (dist_mean sym_as_distrib) [4; 2; a_dim (sym_model true)]%Z)
                    mean_mode None false true None) out
     ∈ trace (predict_future (sym_model true) sym_xs 3 mean_mode true (sym_world 0)).2)
  /\ fails_before_recursion
       (elbo (sym_model true) sym_xs mean_mode None 0.3 1.0 1.0 0.0 true true 0)
       (sym_world 0).
Proof.
  apply (predict_future_accepts_mean_in_training (sym_model true) sym_xs 3 mean_mode None
           0.3 1.0 1.0 0.0 true true 0 (sym_world 0) 4 2 sym_as_distrib 0);
    reflexivity.
Defined.

(** C5, as stated, fails: with the unknown decoder mode "median",
    [predict_future] raises only after the filter, the smoother and the
    predictor have been called. *)
Lemma decoder_mode_checked_after_recursions :
  ~ fail_fast bad_decoder_mode
      (elbo (sym_model false) sym_xs bad_decoder_mode None 0.3 1.0 1.0 0.0 true true 0)
      (predict_future (sym_model false) sym_xs 3 bad_decoder_mode true)
      (sym_world 0).
Proof.
  intros Hclaim. destruct Hclaim as [_ (e & w' & Hrun & Hrec)].
  { right. intros [Hmode|Hmode]; discriminate Hmode. }
  vm_compute in Hrun. apply raised_inv in Hrun as [-> ->].
  vm_compute in Hrec. discriminate Hrec.
Qed.

(** [elbo] never reads the decoder mode: with "median" it returns what it
    returns in sample mode. *)
Example elbo_accepts_unknown_decoder_mode :
  (elbo (sym_model false) sym_xs bad_decoder_mode None 0.3 1.0 1.0 0.0 true true 0
     (sym_world 0)).1
  = Ok (sym_objective, sym_info).
Proof. reflexivity. Qed.

Example predict_future_bad_decoder_mode :
  let run := predict_future (sym_model false) sym_xs 3 bad_decoder_mode true (sym_world 0) in
  run.1 = Raise (ValueError "Invalid sample control for decoder: median")
  /\ length (recursions (trace run.2)) = 3.
Proof. vm_compute. split; reflexivity. Qed.

Lemma invalid_mode_raises_witness :
  let rejected := {| rng := 0; trace := trace (sym_world 0)
                                          ++ [CallEncoder (encoder_input sym_xs)] |} in
  let ran :=
    [CallKalmanFilter (filter_args sym_bad_as bad_decoder_mode None false true None)
       (Ok sym_bad_fo);
     CallKalmanSmooth (smooth_args sym_bad_as sym_bad_fo bad_decoder_mode true None)
       (Ok sym_bad_so);
     CallPredictFuture (predict_args sym_bad_as sym_bad_fo sym_bad_so 3 bad_decoder_mode)
       (Ok sym_bad_po)] in
  (elbo (sym_model false) sym_xs bad_encoder_mode None 0.3 1.0 1.0 0.0 true true 0
     (sym_world 0)
   = (Raise (ValueError ("Invalid sample control for encoder: "
                         +:+ encoder bad_encoder_mode)),
      rejected)
   /\ predict_future (sym_model false) sym_xs 3 bad_encoder_mode true (sym_world 0)
      = (Raise (ValueError ("Invalid sample control for encoder: "
                            +:+ encoder bad_encoder_mode)),
         rejected)
   /\ recursions (trace rejected) = recursions (trace (sym_world 0)))
  /\ (exists w' : World,
        predict_future (sym_model false) sym_xs 3 bad_decoder_mode true (sym_world 0)
        = (Raise (ValueError ("Invalid sample control for decoder: "
                              +:+ decoder bad_decoder_mode)),
           w')
        /\ trace w' = trace (sym_world 0) ++ sym_bad_pre ++ ran
                        ++ [CallDecoder (view (po_as sym_bad_po)
                                              [(-1)%Z; a_dim (sym_model false)])]
        /\ recursions (trace w') = recursions (trace (sym_world 0)) ++ ran).
Proof.
  apply (invalid_mode_raises (sym_model false) sym_xs 3 bad_encoder_mode bad_decoder_mode
           None 0.3 1.0 1.0 0.0 true true 0 (sym_world 0) 4 2
           sym_as_distrib sym_bad_xs_distrib sym_bad_as sym_bad_pre
           sym_bad_fo sym_bad_so sym_bad_po 0 1 2 2 2).
  - intros [Hmode|Hmode]; discriminate Hmode.
  - intros [Hmode|Hmode]; discriminate Hmode.
  - reflexivity.
  - reflexivity.
  - reflexivity.
  - left. split; [reflexivity|]. split; reflexivity.
  - reflexivity.
  - reflexivity.
  - reflexivity.
  - reflexivity.
Defined.

(** C6, as stated, fails: [elbo] has no generator among its arguments, and
    two calls on the same arguments return terms over different noise when
    the default generator is in a different state. *)
Lemma elbo_depends_on_default_generator :
  ~ reproducible_from_arguments
      (elbo (sym_model false) sym_xs sample_mode None 0.3 1.0 1.0 0.0 true true 0).
Proof.
  intros Hclaim. specialize (Hclaim (sym_world 0) (sym_world 1)).
  apply (f_equal returned_noises) in Hclaim.
  vm_compute in Hclaim. discriminate Hclaim.
Qed.

Lemma runs_reproducible_from_generator_state_witness :
  let run_elbo :=
    elbo (sym_model false) sym_xs sample_mode None 0.3 1.0 1.0 0.0 true true 0 in
  let run_predict := predict_future (sym_model false) sym_xs 3 sample_mode true in
  ((run_elbo (sym_world 0)).1 = (run_elbo sym_later_world).1
   /\ rng (run_elbo (sym_world 0)).2 = rng (run_elbo sym_later_world).2)
  /\ ((run_predict (sym_world 0)).1 = (run_predict sym_later_world).1
      /\ rng (run_predict (sym_world 0)).2 = rng (run_predict sym_later_world).2).
Proof.
  apply (runs_reproducible_from_generator_state (sym_model false) sym_xs 3 sample_mode None
           0.3 1.0 1.0 0.0 true true 0 (sym_world 0) sym_later_world).
  reflexivity.
Defined.

Lemma elbo_info_has_no_weights_witness :
  dom sym_info = list_to_set elbo_info_keys
  /\ sym_info !! "weights" = None
  /\ dict_getitem sym_info "weights" = Raise (KeyError "weights").
Proof.
  apply (elbo_info_has_no_weights (sym_model false) sym_xs sample_mode None
           0.3 1.0 1.0 0.0 true true 0 (sym_world 0) sym_final sym_objective sym_info).
  reflexivity.
Defined.
